(** * scripts/deploy-vault.ts: configuration loading and deployment sequence

    A shallow embedding of the vault deployment script.  The script reads
    its parameters from [process.env], validates them, and then issues a
    fixed sequence of calls to the Hardhat/viem chain client.

    - JavaScript strings are [string]s: a character stands for the code
      unit of the same number, so the strings covered are those whose code
      units are below 256 and [String.length] is the JavaScript [length].
    - [process.env] is a finite map from names to strings.
    - A JavaScript [number] is a binary64 value ([spec_float] at precision
      53), and a [bigint] is a [Z].
    - The chain client and the two viem helpers the script imports are the
      script's surroundings: the helpers are the fields of a record [Viem]
      and the client is a [World] answering each operation, so that every
      statement about the script holds for all of their behaviours. *)

From Stdlib Require Import ZArith Ascii String List Bool Lia SpecFloat.
From stdpp Require Import base option gmap strings list.

Local Open Scope Z_scope.

(** ** Thrown values and results *)

(** What an evaluation can throw: the script's own [new Error(message)], a
    [TypeError] of the runtime, the failure of [parseUnits], and whatever a
    chain operation rejects with. *)
Inductive exn : Type :=
| Error (message : string)
| TypeError (message : string)
| InvalidAmountFormat (value : string)
| ChainOperationFailure (detail : string).

Inductive result (A : Type) : Type :=
| Ok (a : A)
| Throw (e : exn).
Arguments Ok {A} a.
Arguments Throw {A} e.

Definition result_bind {A B : Type} (r : result A) (f : A -> result B) : result B :=
  match r with
  | Ok a => f a
  | Throw e => Throw e
  end.

Notation "x <-? r ; k" := (result_bind r (fun x => k))
  (at level 100, r at next level, right associativity).

(** ** JavaScript numbers *)

Module JS.

(** binary64 *)
Definition prec : Z := 53.
Definition emax : Z := 1024.

Abbreviation number := spec_float.

Definition NaN : number := S754_nan.
Definition Infinity (negative : bool) : number := S754_infinity negative.

(** The number nearest to [m * 10^e], ties to even. *)
Definition round_decimal (negative : bool) (m : N) (e : Z) : number :=
  match m with
  | N0 => S754_zero negative
  | Npos p =>
      if 0 <=? e
      then binary_round prec emax negative (p * Z.to_pos (10 ^ e))%positive 0
      else
        let '(q, e', l) :=
          SFdiv_core_binary prec emax (Zpos p) 0 (10 ^ (- e)) 0 in
        binary_round_aux prec emax negative q e' l
  end.

Definition of_nat (n : nat) : number := round_decimal false (N.of_nat n) 0.

(** The natural number a [number] denotes, when it denotes one. *)
Definition to_nat (x : number) : option nat :=
  match x with
  | S754_zero _ => Some O
  | S754_finite false m e =>
      if 0 <=? e then Some (Z.to_nat (Zpos m * 2 ^ e))
      else if Zpos m mod 2 ^ (- e) =? 0 then Some (Z.to_nat (Zpos m / 2 ^ (- e)))
      else None
  | _ => None
  end.

(** *** [Number(string)]: the StringToNumber conversion *)

Definition code (c : ascii) : N := N_of_ascii c.

(** White space and line terminators among the code units below 256. *)
Definition is_white (c : ascii) : bool :=
  let n := code c in
  ((9 <=? n) && (n <=? 13) || (n =? 32) || (n =? 160))%N.

Definition digit_in (base : N) (c : ascii) : option N :=
  let n := code c in
  let v :=
    if ((48 <=? n) && (n <=? 57))%N then Some (n - 48)%N
    else if ((97 <=? n) && (n <=? 122))%N then Some (n - 87)%N
    else if ((65 <=? n) && (n <=? 90))%N then Some (n - 55)%N
    else None in
  match v with
  | Some d => if (d <? base)%N then Some d else None
  | None => None
  end.

Fixpoint trim_start (s : string) : string :=
  match s with
  | String c s' => if is_white c then trim_start s' else s
  | EmptyString => EmptyString
  end.

Fixpoint rev_onto (s acc : string) : string :=
  match s with
  | String c s' => rev_onto s' (String c acc)
  | EmptyString => acc
  end.

Definition trim (s : string) : string :=
  rev_onto (trim_start (rev_onto (trim_start s) EmptyString)) EmptyString.

(** The longest run of digits at the front of [s]: its value read in
    [base] after the digits [acc] already seen, its length, and the rest. *)
Fixpoint digits (base : N) (s : string) (acc : N) (len : nat) : N * nat * string :=
  match s with
  | String c s' =>
      match digit_in base c with
      | Some d => digits base s' (acc * base + d)%N (S len)
      | None => (acc, len, s)
      end
  | EmptyString => (acc, len, s)
  end.

(** [0x], [0o] and [0b] literals: at least one digit and nothing after. *)
Definition radix_literal (base : N) (s : string) : number :=
  match digits base s 0%N O with
  | (v, S _, EmptyString) => round_decimal false v 0
  | _ => NaN
  end.

(** The exponent part, if any, then the end of the string. *)
Definition exponent_part (s : string) : option Z :=
  match s with
  | EmptyString => Some 0
  | String c s' =>
      if ((code c =? 101) || (code c =? 69))%N then
        let '(negative, s'') :=
          match s' with
          | String "+" t => (false, t)
          | String "-" t => (true, t)
          | _ => (false, s')
          end in
        match digits 10 s'' 0%N O with
        | (v, S _, EmptyString) =>
            Some (if negative : bool then - Z.of_N v else Z.of_N v)
        | _ => None
        end
      else None
  end.

(** [digits], [digits.digits], [digits.] or [.digits], then the exponent. *)
Definition unsigned_decimal (negative : bool) (s : string) : number :=
  let '(ip, ilen, s1) := digits 10 s 0%N O in
  let '(m, flen, s2) :=
    match s1 with
    | String "." t => digits 10 t ip O
    | _ => (ip, O, s1)
    end in
  match (ilen + flen)%nat with
  | O => NaN
  | S _ =>
      match exponent_part s2 with
      | Some e => round_decimal negative m (e - Z.of_nat flen)
      | None => NaN
      end
  end.

Definition signed_decimal (negative : bool) (s : string) : number :=
  if String.eqb s "Infinity" then Infinity negative
  else unsigned_decimal negative s.

Definition Number (s : string) : number :=
  match trim s with
  | EmptyString => S754_zero false
  | String "+" t => signed_decimal false t
  | String "-" t => signed_decimal true t
  | String "0" (String c t) as u =>
      if ((code c =? 120) || (code c =? 88))%N then radix_literal 16 t
      else if ((code c =? 111) || (code c =? 79))%N then radix_literal 8 t
      else if ((code c =? 98) || (code c =? 66))%N then radix_literal 2 t
      else signed_decimal false u
  | u => signed_decimal false u
  end.

End JS.

(** ** Configuration loader *)

Abbreviation number := JS.number.
Abbreviation Address := string (only parsing).
Abbreviation Hex := string (only parsing).

(** An argument of a contract call, of a constructor, or of [console.log]. *)
Inductive Value : Type :=
| VString (s : string)
| VBigInt (z : Z)
| VNumber (n : number).

(** The two functions the script imports from viem.  Both can throw. *)
Record Viem : Type := {
  parseUnits : string -> number -> result Z;
  encodeFunctionData : string -> string -> list Value -> result Hex
}.

Record DeployConfig : Type := {
  asset : Address;
  aToken : Address;
  addressesProvider : Address;
  verifier : Address;
  maxUserDeposit : Z;
  maxTotalDeposit : Z;
  assetDecimals : number;
  rebalancer : option Address;
  authorizeVaultOnVerifier : bool
}.

(** The two messages of [requireAddress], as the error kinds they stand for. *)
Definition MissingConfiguration (name : string) : exn :=
  Error ("Missing required env var " +:+ name).

Definition InvalidAddressFormat (name : string) : exn :=
  Error ("Env var " +:+ name +:+ " must be a 20-byte hex address").

(** [!value] for a value read from [process.env]. *)
Definition falsy (value : option string) : bool :=
  match value with
  | None => true
  | Some s => String.eqb s ""
  end.

(** [a ?? b] *)
Definition nullish {A : Type} (a : option A) (b : A) : A :=
  match a with
  | Some x => x
  | None => b
  end.

Infix "??" := nullish (at level 45, left associativity).

Section Loader.

Variable V : Viem.
Variable env : gmap string string.

Definition requireAddress (name : string) : result Address :=
  let value := env !! name in
  if falsy value then Throw (MissingConfiguration name)
  else
    let value := value ?? "" in
    if negb (String.prefix "0x" value) || negb (String.length value =? 42)%nat
    then Throw (InvalidAddressFormat name)
    else Ok value.

Definition getAmountEnv (name : string) (decimals : number) (fallback : string)
  : result Z :=
  let raw := env !! name ?? fallback in
  parseUnits V raw decimals.

(** The fields of the object literal are evaluated in the order written. *)
Definition loadConfig : result DeployConfig :=
  let assetDecimals := JS.Number (env !! "ASSET_DECIMALS" ?? "18") in
  asset <-? requireAddress "ASSET_ADDRESS";
  aToken <-? requireAddress "ATOKEN_ADDRESS";
  addressesProvider <-? requireAddress "AAVE_PROVIDER_ADDRESS";
  verifier <-? requireAddress "VERIFIER_ADDRESS";
  maxUserDeposit <-? getAmountEnv "MAX_USER_DEPOSIT" assetDecimals "1000";
  maxTotalDeposit <-? getAmountEnv "MAX_TOTAL_DEPOSIT" assetDecimals "10000";
  Ok {| asset := asset;
        aToken := aToken;
        addressesProvider := addressesProvider;
        verifier := verifier;
        maxUserDeposit := maxUserDeposit;
        maxTotalDeposit := maxTotalDeposit;
        assetDecimals := assetDecimals;
        rebalancer := env !! "REBALANCER_ADDRESS";
        authorizeVaultOnVerifier :=
          bool_decide (env !! "AUTHORIZE_VAULT" = Some "true") |}.

End Loader.

(** The required address variables, in the order [loadConfig] reads them. *)
Definition required : list string :=
  ["ASSET_ADDRESS"; "ATOKEN_ADDRESS"; "AAVE_PROVIDER_ADDRESS"; "VERIFIER_ADDRESS"].

(** ** The chain client *)

Module Account.
Record t : Type := { address : Address }.
End Account.

Module WalletClient.
Record t : Type := { account : Account.t }.
End WalletClient.

Module Contract.
Record t : Type := { address : Address; abi : string }.
End Contract.

(** The operations the script awaits on the Hardhat connection: each is a
    request to the node or to the Hardhat runtime and may be rejected. *)
Inductive Op : Type :=
| Connect
| GetPublicClient
| GetWalletClients
| GetChainId
| DeployContract (name : string) (account : Account.t) (args : list Value)
| GetContractAt (name : string) (address : Address)
| Write (target : Contract.t) (functionName : string) (args : list Value)
        (account : Account.t).

(** What an operation resolves to. *)
Definition Resp (o : Op) : Type :=
  match o with
  | Connect => unit
  | GetPublicClient => unit
  | GetWalletClients => list WalletClient.t
  | GetChainId => number
  | DeployContract _ _ _ => Contract.t
  | GetContractAt _ _ => Contract.t
  | Write _ _ _ _ => Hex
  end.

(** The top-level code of the module: a sequence of awaited operations and
    [console.log] lines.  There is no constructor for catching: the script
    has no [try]. *)
Inductive Script (A : Type) : Type :=
| Return (a : A)
| Raise (e : exn)
| Await (o : Op) (k : Resp o -> Script A)
| Log (args : list Value) (k : Script A).
Arguments Return {A} a.
Arguments Raise {A} e.
Arguments Await {A} o k.
Arguments Log {A} args k.

Fixpoint bind {A B : Type} (s : Script A) (f : A -> Script B) : Script B :=
  match s with
  | Return a => f a
  | Raise e => Raise e
  | Await o k => Await o (fun r => bind (k r) f)
  | Log args k => Log args (bind k f)
  end.

Definition await (o : Op) : Script (Resp o) := Await o Return.
Definition log (args : list Value) : Script unit := Log args (Return tt).
Definition lift {A : Type} (r : result A) : Script A :=
  match r with
  | Ok a => Return a
  | Throw e => Raise e
  end.

Notation "x <- s ;; k" := (bind s (fun x => k))
  (at level 100, s at next level, right associativity).
Notation "s ;; k" := (bind s (fun _ => k))
  (at level 100, right associativity).

(** What a run leaves behind, in order: the operations attempted and the
    lines written. *)
Inductive Event : Type :=
| Called (o : Op)
| Logged (args : list Value).

(** The client: given what has happened so far, the outcome of an operation. *)
Definition World : Type := list Event -> forall o : Op, result (Resp o).

(** Runs a script after the events [past]: the events it adds, and how it
    ends.  A rejected operation ends the run with the rejection. *)
Fixpoint run {A : Type} (W : World) (past : list Event) (s : Script A)
  : list Event * result A :=
  match s with
  | Return a => ([], Ok a)
  | Raise e => ([], Throw e)
  | Await o k =>
      match W past o with
      | Ok r =>
          let '(events, outcome) := run W (past ++ [Called o]) (k r) in
          (Called o :: events, outcome)
      | Throw e => ([Called o], Throw e)
      end
  | Log args k =>
      let '(events, outcome) := run W (past ++ [Logged args]) k in
      (Logged args :: events, outcome)
  end.

(** ** The deployment sequence *)

Section Orchestrator.

Variable V : Viem.

(** Lines 56 to 119: everything after the deployer has been selected. *)
Definition deploy (params : DeployConfig) (deployer : WalletClient.t) : Script unit :=
  let account := WalletClient.account deployer in
  log [VString "Deploying with account:"; VString (Account.address account)];;
  chainId <- await GetChainId;;
  log [VString "Chain id:"; VNumber chainId];;

  log [VString "Deploying AaveV3Strategy..."];;
  strategy <- await (DeployContract "AaveV3Strategy" account
    [VString (asset params); VString (aToken params);
     VString (addressesProvider params)]);;

  log [VString "Deploying AttestifyVault implementation..."];;
  vaultImplementation <- await (DeployContract "AttestifyVault" account []);;

  initData <- lift (encodeFunctionData V (Contract.abi vaultImplementation)
    "initialize"
    [VString (asset params);
     VString (Contract.address strategy);
     VString (verifier params);
     VBigInt (maxUserDeposit params);
     VBigInt (maxTotalDeposit params)]);;

  log [VString "Deploying ERC1967 proxy..."];;
  proxy <- await (DeployContract "TestProxy" account
    [VString (Contract.address vaultImplementation); VString initData]);;

  vault <- await (GetContractAt "AttestifyVault" (Contract.address proxy));;
  log [VString "Vault proxy deployed at:"; VString (Contract.address vault)];;

  log [VString "Linking strategy to vault..."];;
  await (Write strategy "setVault" [VString (Contract.address vault)] account);;

  (if negb (falsy (rebalancer params)) &&
      negb (String.eqb (rebalancer params ?? "") (Account.address account))
   then
     log [VString "Setting custom rebalancer:"; VString (rebalancer params ?? "")];;
     await (Write vault "setRebalancer" [VString (rebalancer params ?? "")] account);;
     Return tt
   else Return tt);;

  (if authorizeVaultOnVerifier params
   then
     log [VString "Authorizing vault on verifier..."];;
     verifier <- await (GetContractAt "SelfProtocolVerifier" (verifier params));;
     await (Write verifier "authorizeCaller" [VString (Contract.address vault)] account);;
     Return tt
   else Return tt);;

  log [VString "
Deployment complete:"];;
  log [VString "- Strategy:"; VString (Contract.address strategy)];;
  log [VString "- Vault Implementation:"; VString (Contract.address vaultImplementation)];;
  log [VString "- Vault Proxy:"; VString (Contract.address vault)];;

  log [VString "
Remember to:"];;
  log [VString "1. Fund the vault with reserves if needed."];;
  log [VString "2. Verify contracts on the block explorer."];;
  log [VString "3. Configure rebalancer/treasury roles and deposit limits as required."].

(** The whole module, lines 51 to 119.  [const [deployer] = ...] leaves
    [deployer] undefined when there is no wallet client, and line 56 then
    throws on reading [deployer.account]. *)
Definition main (env : gmap string string) : Script unit :=
  params <- lift (loadConfig V env);;
  await Connect;;
  await GetPublicClient;;
  wallets <- await GetWalletClients;;
  match wallets with
  | deployer :: _ => deploy params deployer
  | [] => Raise (TypeError "Cannot read properties of undefined (reading 'account')")
  end.

End Orchestrator.

(** ** viem's [parseUnits] *)

Module Units.

(** A decimal numeral: an optional minus sign, one or more digits, and
    optionally a point followed by one or more digits.  [fractional] is
    empty when there is no point. *)
Record numeral : Type := {
  negative : bool;
  integral : string;
  fractional : string
}.

Definition is_digit (c : ascii) : bool :=
  ((48 <=? JS.code c) && (JS.code c <=? 57))%N.

Fixpoint digit_string (s : string) : bool :=
  match s with
  | EmptyString => true
  | String c s' => is_digit c && digit_string s'
  end.

Definition well_formed (x : numeral) : Prop :=
  integral x <> "" /\ digit_string (integral x) = true /\
  digit_string (fractional x) = true.

Definition spelling (x : numeral) : string :=
  (if negative x then "-" else "") +:+ integral x +:+
  match fractional x with
  | EmptyString => ""
  | f => "." +:+ f
  end.

(** The value of a digit string read after the value [acc]. *)
Fixpoint value_of (s : string) (acc : N) : N :=
  match s with
  | EmptyString => acc
  | String c s' => value_of s' (acc * 10 + (JS.code c - 48))%N
  end.

(** The numeral times [10^d], when that is an integer. *)
Definition scaled (x : numeral) (d : nat) : option Z :=
  let places := String.length (fractional x) in
  let units := Z.of_N (value_of (fractional x) (value_of (integral x) 0)) in
  if units * 10 ^ Z.of_nat d mod 10 ^ Z.of_nat places =? 0
  then Some ((if negative x then Z.opp else id)
               (units * 10 ^ Z.of_nat d / 10 ^ Z.of_nat places))
  else None.

(** Modelled from the spec: viem's [parseUnits], which the script imports
    and which is not part of the repository.  The spec (section 4.1) has
    it parse "the decimal string into a fixed-point integer scaled by
    decimals" and fail with InvalidAmountFormat "if the string is not a
    valid decimal numeral representable at that scale".  A scale is a
    natural number; under any other [decimals] nothing is representable. *)
Definition parseUnits (raw : string) (decimals : number) : result Z :=
  let '(neg, body) :=
    match raw with
    | String "-" t => (true, t)
    | _ => (false, raw)
    end in
  let sign := if neg : bool then Z.opp else id in
  match JS.to_nat decimals, JS.digits 10 body 0%N O with
  | Some d, (ip, S _, EmptyString) => Ok (sign (Z.of_N ip * 10 ^ Z.of_nat d))
  | Some d, (ip, S _, String "." t) =>
      match JS.digits 10 t ip O with
      | (units, S _ as places, EmptyString) =>
          if Z.of_N units * 10 ^ Z.of_nat d mod 10 ^ Z.of_nat places =? 0
          then Ok (sign (Z.of_N units * 10 ^ Z.of_nat d / 10 ^ Z.of_nat places))
          else Throw (InvalidAmountFormat raw)
      | _ => Throw (InvalidAmountFormat raw)
      end
  | _, _ => Throw (InvalidAmountFormat raw)
  end.

End Units.

(** ** A recording double of the surroundings

    Deterministic answers for every operation, used to run the script on
    concrete environments. *)

Module Mock.

(** An encoder that only names the function it was asked to encode. *)
Definition viem : Viem :=
  {| parseUnits := Units.parseUnits;
     encodeFunctionData := fun abi functionName args => Ok ("0x" +:+ functionName) |}.

Definition deployerAddress : Address := "0xf39Fd6e51aad88F6F4ce6aB8827279cffFb92266".

Definition addressOf (name : string) : Address :=
  if String.eqb name "AaveV3Strategy" then "0x5FbDB2315678afecb367f032d93F642f64180aa3"
  else if String.eqb name "AttestifyVault" then "0xe7f1725E7734CE288F8367e1Bb143E90bb3F0512"
  else "0x9fE46736679d2D9a65F0992F2272dE9f3c7fa6e0".

Definition deployer : WalletClient.t :=
  {| WalletClient.account := {| Account.address := deployerAddress |} |}.

(** Every operation succeeds, except the deployment of [failing] if any. *)
Definition world (failing : option string) : World :=
  fun past o =>
    match o return result (Resp o) with
    | Connect => Ok tt
    | GetPublicClient => Ok tt
    | GetWalletClients => Ok [deployer]
    | GetChainId => Ok (JS.round_decimal false 31337 0)
    | DeployContract name _ _ =>
        if bool_decide (failing = Some name)
        then Throw (ChainOperationFailure "RPC error")
        else Ok {| Contract.address := addressOf name; Contract.abi := name |}
    | GetContractAt name address =>
        Ok {| Contract.address := address; Contract.abi := name |}
    | Write _ _ _ _ => Ok "0x01"
    end.

Definition a1 : Address := "0x1111111111111111111111111111111111111111".
Definition a2 : Address := "0x2222222222222222222222222222222222222222".
Definition a3 : Address := "0x3333333333333333333333333333333333333333".
Definition a4 : Address := "0x4444444444444444444444444444444444444444".

(** The four required addresses and nothing else. *)
Definition addresses : gmap string string :=
  <["ASSET_ADDRESS" := a1]> (<["ATOKEN_ADDRESS" := a2]>
  (<["AAVE_PROVIDER_ADDRESS" := a3]> (<["VERIFIER_ADDRESS" := a4]> ∅))).

(** The environment of the end-to-end scenario. *)
Definition scenario : gmap string string :=
  <["MAX_USER_DEPOSIT" := "500"]> (<["ASSET_DECIMALS" := "6"]> addresses).

(** The client of a node with no account. *)
Definition no_wallet : World :=
  fun past o =>
    match o as o' return result (Resp o') with
    | GetWalletClients => Ok []
    | o' => world None past o'
    end.

(** viem with an encoder that finds no function to encode. *)
Definition no_encoder : Viem :=
  {| parseUnits := Units.parseUnits;
     encodeFunctionData := fun abi functionName args =>
       Throw (Error "AbiFunctionNotFoundError") |}.

Definition account : Account.t := WalletClient.account deployer.

Definition contract (name : string) : Contract.t :=
  {| Contract.address := addressOf name; Contract.abi := name |}.

(** The scenario with a rebalancer of its own and the authorization on. *)
Definition full : gmap string string :=
  <["REBALANCER_ADDRESS" := a1]> (<["AUTHORIZE_VAULT" := "true"]> scenario).

End Mock.

(** ** Reading a run *)

(** The pattern of the spec for an address: [0x] and 40 hex digits. *)
Definition is_hex (c : ascii) : bool :=
  match JS.digit_in 16 c with
  | Some _ => true
  | None => false
  end.

Fixpoint all_hex (s : string) : bool :=
  match s with
  | EmptyString => true
  | String c s' => is_hex c && all_hex s'
  end.

Definition is_address (s : string) : bool :=
  String.prefix "0x" s && (String.length s =? 42)%nat &&
  all_hex (String.substring 2 40 s).

(** The contracts deployed, by name, in order. *)
Fixpoint deployments (events : list Event) : list string :=
  match events with
  | Called (DeployContract name _ _) :: rest => name :: deployments rest
  | _ :: rest => deployments rest
  | [] => []
  end.

(** The write transactions sent: function, target address and arguments. *)
Fixpoint writes (events : list Event) : list (string * Address * list Value) :=
  match events with
  | Called (Write target functionName args _) :: rest =>
      (functionName, Contract.address target, args) :: writes rest
  | _ :: rest => writes rest
  | [] => []
  end.

(** The handles requested with [getContractAt]. *)
Fixpoint handles (events : list Event) : list (string * Address) :=
  match events with
  | Called (GetContractAt name address) :: rest => (name, address) :: handles rest
  | _ :: rest => handles rest
  | [] => []
  end.

(** The chain operations attempted. *)
Fixpoint operations (events : list Event) : list Op :=
  match events with
  | Called o :: rest => o :: operations rest
  | _ :: rest => operations rest
  | [] => []
  end.

(** The lines written after the line [title]. *)
Fixpoint lines_after (title : string) (events : list Event) : list (list Value) :=
  match events with
  | Logged [VString s] :: rest =>
      if String.eqb s title then
        flat_map (fun ev => match ev with Logged l => [l] | Called _ => [] end) rest
      else lines_after title rest
  | _ :: rest => lines_after title rest
  | [] => []
  end.

(** The lines up to the line [title]. *)
Fixpoint lines_before (title : string) (lines : list (list Value)) : list (list Value) :=
  match lines with
  | [VString s] :: rest =>
      if String.eqb s title then [] else [VString s] :: lines_before title rest
  | l :: rest => l :: lines_before title rest
  | [] => []
  end.

(** The final report: what is written between the two closing titles. *)
Definition report (events : list Event) : list (list Value) :=
  lines_before "
Remember to:" (lines_after "
Deployment complete:" events).

(** In the run that left [events], operation [o] was attempted and resolved
    to [r], or was rejected with [e]. *)
Definition resolved (W : World) (events : list Event) (o : Op) (r : Resp o) : Prop :=
  exists before after, events = before ++ Called o :: after /\ W before o = Ok r.

Definition rejected (W : World) (events : list Event) (o : Op) (e : exn) : Prop :=
  exists before after, events = before ++ Called o :: after /\ W before o = Throw e.

(** In the run that left [events], the contract [name] was deployed as [c]. *)
Definition deployed (W : World) (events : list Event) (name : string)
    (c : Contract.t) : Prop :=
  exists account args, resolved W events (DeployContract name account args) c.

(** A client under which nothing fails: every operation is resolved, there
    is a wallet client, and a handle is at the address it was asked for. *)
Definition cooperative (W : World) : Prop :=
  (forall past o, exists r, W past o = Ok r) /\
  (forall past, W past GetWalletClients <> Ok []) /\
  (forall past name address c,
      W past (GetContractAt name address) = Ok c -> Contract.address c = address).

(** Follows a run of [main] down every path: the outcome of the loader, of
    each operation in turn, of the encoder and of the two conditions. *)
Ltac walk_in Hrun W :=
  repeat (cbn in Hrun;
          match type of Hrun with
          | context [W ?past ?o] => destruct (W past o) eqn:?
          | context [lift ?r] => destruct r eqn:?
          | context [match ?l with [] => _ | _ :: _ => _ end] => is_var l; destruct l
          | context [negb (falsy ?r) && ?c] => destruct (negb (falsy r) && c) eqn:?
          | context [authorizeVaultOnVerifier ?p] =>
              destruct (authorizeVaultOnVerifier p) eqn:?
          end);
  cbn in Hrun.

(** An operation of the path at hand was resolved as the path records. *)
Ltac recorded :=
  match goal with
  | H : ?W ?past ?o = Ok _ |- resolved ?W _ ?o _ =>
      exists past; eexists; split; [reflexivity | exact H]
  | H : ?W ?past (DeployContract ?name _ _) = Ok _ |- deployed ?W _ ?name _ =>
      do 2 eexists; exists past; eexists; split; [reflexivity | exact H]
  end.

(** The writes of the function [functionName]: target address and arguments. *)
Fixpoint calls (functionName : string) (events : list Event)
  : list (Address * list Value) :=
  match events with
  | Called (Write target f args _) :: rest =>
      if String.eqb f functionName
      then (Contract.address target, args) :: calls functionName rest
      else calls functionName rest
  | _ :: rest => calls functionName rest
  | [] => []
  end.

(** Finds where an event sits in the events of the path at hand. *)
Ltac locate H :=
  lazymatch type of H with
  | [] = ?before ++ _ :: _ => destruct before; discriminate H
  | _ :: _ = ?before ++ _ :: _ =>
      destruct before;
      [ first [ discriminate H | inversion H; subst ]
      | let H' := fresh H in injection H as <- H'; locate H' ]
  end.

(** Finds which event of the path at hand a given event is. *)
Ltac among H :=
  cbn [In] in H;
  repeat (destruct H as [H|H]; [try discriminate H|]);
  try contradiction H.

(** The account an operation is made with, if it takes one. *)
Definition account_of (o : Op) : option Account.t :=
  match o with
  | DeployContract _ account _ => Some account
  | Write _ _ _ account => Some account
  | _ => None
  end.

(** The variables the script reads. *)
Definition variables : list string :=
  ["ASSET_DECIMALS"; "ASSET_ADDRESS"; "ATOKEN_ADDRESS"; "AAVE_PROVIDER_ADDRESS";
   "VERIFIER_ADDRESS"; "MAX_USER_DEPOSIT"; "MAX_TOTAL_DEPOSIT";
   "REBALANCER_ADDRESS"; "AUTHORIZE_VAULT"].

(** An operation with parts still to be found was resolved as the path
    at hand records. *)
Ltac recorded_at :=
  match goal with
  | H : ?W ?past _ = Ok _ |- resolved ?W _ _ _ =>
      exists past; eexists; split; [reflexivity | exact H]
  end.

(** Two answers to the same operation after the same events are one. *)
Ltac same_answer :=
  repeat match goal with
         | H : ?x = Ok _, H' : ?x = Throw _ |- _ => rewrite H in H'; discriminate H'
         | H : ?x = Ok ?a, H' : ?x = Ok ?b |- _ =>
             rewrite H in H'; first [discriminate H' | injection H' as <- | clear H']
         end.

(** * Properties *)

(** ** The loader *)

Lemma MissingConfiguration_not_InvalidAddressFormat (name name' : string) :
  MissingConfiguration name <> InvalidAddressFormat name'.
Proof. unfold MissingConfiguration, InvalidAddressFormat. simpl. discriminate. Qed.

Lemma MissingConfiguration_inj (name name' : string) :
  MissingConfiguration name = MissingConfiguration name' -> name = name'.
Proof. unfold MissingConfiguration. simpl. intros H. now injection H. Qed.

Section LoaderFacts.

Variable V : Viem.
Variable env : gmap string string.

(** The three outcomes of [requireAddress], by the value read. *)
Lemma requireAddress_unfold (name : string) :
  requireAddress env name =
  match env !! name with
  | None => Throw (MissingConfiguration name)
  | Some value =>
      if String.eqb value "" then Throw (MissingConfiguration name)
      else if String.prefix "0x" value && (String.length value =? 42)%nat
           then Ok value
           else Throw (InvalidAddressFormat name)
  end.
Proof.
  unfold requireAddress. destruct (env !! name) as [value|]; simpl; [|reflexivity].
  destruct (String.eqb value ""); [reflexivity|].
  destruct (String.prefix "0x" value), (String.length value =? 42)%nat; reflexivity.
Qed.

Lemma requireAddress_Ok (name : string) (a : Address) :
  requireAddress env name = Ok a <->
  env !! name = Some a /\ String.prefix "0x" a = true /\ String.length a = 42%nat.
Proof.
  rewrite requireAddress_unfold. split.
  - destruct (env !! name) as [value|]; [|discriminate].
    destruct (String.eqb value ""); [discriminate|].
    destruct (String.prefix "0x" value) eqn:Hp; [|discriminate].
    destruct (Nat.eqb_spec (String.length value) 42) as [Hl|]; [|discriminate].
    simpl. intros [= <-]. auto.
  - intros (-> & Hp & Hl). rewrite Hp, Hl. simpl.
    destruct a; [discriminate|reflexivity].
Qed.

(** [loadConfig] stops at the first required variable that is refused. *)
Lemma loadConfig_first_failure (before after : list string) (name : string) (e : exn) :
  required = before ++ name :: after ->
  Forall (fun n => exists a, requireAddress env n = Ok a) before ->
  requireAddress env name = Throw e ->
  loadConfig V env = Throw e.
Proof.
  intros Hsplit Hbefore Hname. unfold required in Hsplit.
  repeat (destruct before as [|? before];
          [ simpl in Hsplit; injection Hsplit as <- <-
          | simpl in Hsplit; injection Hsplit as <- Hsplit;
            apply Forall_cons_iff in Hbefore as [[? ?] Hbefore] ]);
    try (unfold loadConfig; repeat match goal with
           | H : requireAddress env _ = _ |- _ => rewrite H; clear H
           end; reflexivity).
  destruct before; discriminate.
Qed.

(** What a successful [loadConfig] has read. *)
Lemma loadConfig_Ok (cfg : DeployConfig) :
  loadConfig V env = Ok cfg <->
  let decimals := JS.Number (env !! "ASSET_DECIMALS" ?? "18") in
  requireAddress env "ASSET_ADDRESS" = Ok (asset cfg) /\
  requireAddress env "ATOKEN_ADDRESS" = Ok (aToken cfg) /\
  requireAddress env "AAVE_PROVIDER_ADDRESS" = Ok (addressesProvider cfg) /\
  requireAddress env "VERIFIER_ADDRESS" = Ok (verifier cfg) /\
  parseUnits V (env !! "MAX_USER_DEPOSIT" ?? "1000") decimals = Ok (maxUserDeposit cfg) /\
  parseUnits V (env !! "MAX_TOTAL_DEPOSIT" ?? "10000") decimals = Ok (maxTotalDeposit cfg) /\
  assetDecimals cfg = decimals /\
  rebalancer cfg = env !! "REBALANCER_ADDRESS" /\
  authorizeVaultOnVerifier cfg = bool_decide (env !! "AUTHORIZE_VAULT" = Some "true").
Proof.
  unfold loadConfig, getAmountEnv. simpl. split.
  - destruct (requireAddress env "ASSET_ADDRESS"); [simpl|discriminate].
    destruct (requireAddress env "ATOKEN_ADDRESS"); [simpl|discriminate].
    destruct (requireAddress env "AAVE_PROVIDER_ADDRESS"); [simpl|discriminate].
    destruct (requireAddress env "VERIFIER_ADDRESS"); [simpl|discriminate].
    destruct (parseUnits V (env !! "MAX_USER_DEPOSIT" ?? "1000") _); [simpl|discriminate].
    destruct (parseUnits V (env !! "MAX_TOTAL_DEPOSIT" ?? "10000") _); [simpl|discriminate].
    intros [= <-]. simpl. repeat split; reflexivity.
  - intros (-> & -> & -> & -> & -> & -> & Hd & Hr & Ha). simpl.
    destruct cfg; simpl in *. subst. reflexivity.
Qed.

End LoaderFacts.

(** ** Runs *)

Section RunFacts.

Context {A : Type}.
Variable W : World.

(** A rejected operation is the last thing a run does, and the rejection
    is how the run ends: nothing in a script can catch it. *)
Lemma run_rejected (s : Script A) :
  forall (past events before after : list Event) (outcome : result A)
         (o : Op) (e : exn),
    run W past s = (events, outcome) ->
    events = before ++ Called o :: after ->
    W (past ++ before) o = Throw e ->
    after = [] /\ outcome = Throw e.
Proof.
  induction s as [a|e0|o0 k IH|args k IH];
    intros past events before after outcome o e Hrun Hsplit Hrej; simpl in Hrun.
  - injection Hrun as <- <-. destruct before; discriminate.
  - injection Hrun as <- <-. destruct before; discriminate.
  - destruct (W past o0) as [r|e1] eqn:Hans.
    + destruct (run W (past ++ [Called o0]) (k r)) as [events' outcome'] eqn:Hrest.
      injection Hrun as <- <-.
      destruct before as [|ev before]; simpl in Hsplit.
      * injection Hsplit as <- ->. rewrite app_nil_r in Hrej. congruence.
      * injection Hsplit as <- ->.
        eapply IH; [exact Hrest|reflexivity|].
        rewrite <- app_assoc. exact Hrej.
    + injection Hrun as <- <-.
      destruct before as [|ev before]; simpl in Hsplit.
      * injection Hsplit as <- <-. rewrite app_nil_r in Hrej. split; congruence.
      * injection Hsplit as _ Hsplit. destruct before; discriminate.
  - destruct (run W (past ++ [Logged args]) k) as [events' outcome'] eqn:Hrest.
    injection Hrun as <- <-.
    destruct before as [|ev before]; simpl in Hsplit; [discriminate|].
    injection Hsplit as <- ->.
    eapply IH; [exact Hrest|reflexivity|].
    rewrite <- app_assoc. exact Hrej.
Qed.

(** A run that ends well has had every operation resolved. *)
Lemma run_Ok_resolved (s : Script A) :
  forall (past events before after : list Event) (a : A) (o : Op),
    run W past s = (events, Ok a) ->
    events = before ++ Called o :: after ->
    exists r, W (past ++ before) o = Ok r.
Proof.
  intros past events before after a o Hrun Hsplit.
  destruct (W (past ++ before) o) as [r|e] eqn:Hans; [eauto|].
  destruct (run_rejected s _ _ _ _ _ _ _ Hrun Hsplit Hans) as [_ ?]. discriminate.
Qed.

End RunFacts.

Lemma is_address_checked (a : Address) :
  is_address a = true -> String.prefix "0x" a = true /\ String.length a = 42%nat.
Proof.
  unfold is_address. intros [[Hp Hl]%andb_prop _]%andb_prop.
  apply Nat.eqb_eq in Hl. auto.
Qed.

Lemma requireAddress_address (env : gmap string string) (name : string) (a : Address) :
  env !! name = Some a -> is_address a = true -> requireAddress env name = Ok a.
Proof.
  intros Hget [Hp Hl]%is_address_checked. apply requireAddress_Ok. auto.
Qed.

(** C3: with the four addresses valid, [MAX_USER_DEPOSIT=500],
    [ASSET_DECIMALS=6], no rebalancer and [AUTHORIZE_VAULT] unset, under a
    client that resolves every operation the script ends well, having
    deployed the strategy, the vault implementation and the proxy in that
    order; its only write is one [setVault], sent to the strategy with the
    proxy address, so there is no [setRebalancer] and no [authorizeCaller];
    and the final report is the three lines of the strategy, implementation
    and proxy addresses. *)
Theorem scenario_run (V : Viem) (W : World) (env : gmap string string)
    (a1 a2 a3 a4 : Address) (user total : Z) :
  env !! "ASSET_ADDRESS" = Some a1 -> is_address a1 = true ->
  env !! "ATOKEN_ADDRESS" = Some a2 -> is_address a2 = true ->
  env !! "AAVE_PROVIDER_ADDRESS" = Some a3 -> is_address a3 = true ->
  env !! "VERIFIER_ADDRESS" = Some a4 -> is_address a4 = true ->
  env !! "MAX_USER_DEPOSIT" = Some "500" ->
  env !! "ASSET_DECIMALS" = Some "6" ->
  env !! "REBALANCER_ADDRESS" = None ->
  env !! "AUTHORIZE_VAULT" = None ->
  parseUnits V "500" (JS.of_nat 6) = Ok user ->
  parseUnits V (env !! "MAX_TOTAL_DEPOSIT" ?? "10000") (JS.of_nat 6) = Ok total ->
  (forall abi args, exists data, encodeFunctionData V abi "initialize" args = Ok data) ->
  cooperative W ->
  exists events strategy implementation proxy,
    run W [] (main V env) = (events, Ok tt) /\
    deployed W events "AaveV3Strategy" strategy /\
    deployed W events "AttestifyVault" implementation /\
    deployed W events "TestProxy" proxy /\
    deployments events = ["AaveV3Strategy"; "AttestifyVault"; "TestProxy"] /\
    writes events =
      [("setVault", Contract.address strategy, [VString (Contract.address proxy)])] /\
    report events =
      [[VString "- Strategy:"; VString (Contract.address strategy)];
       [VString "- Vault Implementation:"; VString (Contract.address implementation)];
       [VString "- Vault Proxy:"; VString (Contract.address proxy)]].
Proof.
  intros H1 V1 H2 V2 H3 V3 H4 V4 Huser Hdec Hreb Hauth Puser Ptotal Henc (Hall & Hw & Hh).
  assert (Hcfg : loadConfig V env =
                 Ok {| asset := a1; aToken := a2; addressesProvider := a3;
                       verifier := a4; maxUserDeposit := user;
                       maxTotalDeposit := total; assetDecimals := JS.of_nat 6;
                       rebalancer := None; authorizeVaultOnVerifier := false |}).
  { apply loadConfig_Ok. rewrite Hdec, Huser, Hreb, Hauth. simpl.
    repeat split; auto using requireAddress_address. }
  destruct (run W [] (main V env)) as [events outcome] eqn:Hrun.
  unfold main, deploy in Hrun. rewrite Hcfg in Hrun.
  walk_in Hrun W;
    try match goal with
        | H : W ?past ?o = Throw _ |- _ =>
            destruct (Hall past o) as [? ?]; congruence
        | H : W ?past GetWalletClients = Ok [] |- _ => destruct (Hw past H)
        | H : encodeFunctionData V ?abi _ ?args = Throw _ |- _ =>
            destruct (Henc abi args) as [? ?]; congruence
        end.
  injection Hrun as <- <-.
  match goal with
  | H : W _ (GetContractAt "AttestifyVault" _) = Ok _ |- _ => apply Hh in H as Hvault
  end.
  do 4 eexists. split; [reflexivity|].
  repeat (split; [recorded|]).
  cbn. rewrite Hvault. repeat split; reflexivity.
Qed.

Lemma cooperative_world : cooperative (Mock.world None).
Proof.
  split; [|split].
  - intros past o. destruct o; simpl; eauto.
  - intros past. discriminate.
  - intros past name address c [= <-]. reflexivity.
Qed.

Lemma scenario_run_witness :
  cooperative (Mock.world None) /\
  exists events strategy implementation proxy,
    run (Mock.world None) [] (main Mock.viem Mock.scenario) = (events, Ok tt) /\
    deployed (Mock.world None) events "AaveV3Strategy" strategy /\
    deployed (Mock.world None) events "AttestifyVault" implementation /\
    deployed (Mock.world None) events "TestProxy" proxy /\
    deployments events = ["AaveV3Strategy"; "AttestifyVault"; "TestProxy"] /\
    writes events =
      [("setVault", Contract.address strategy, [VString (Contract.address proxy)])] /\
    report events =
      [[VString "- Strategy:"; VString (Contract.address strategy)];
       [VString "- Vault Implementation:"; VString (Contract.address implementation)];
       [VString "- Vault Proxy:"; VString (Contract.address proxy)]].
Proof.
  split; [exact cooperative_world|].
  apply (scenario_run Mock.viem (Mock.world None) Mock.scenario
           Mock.a1 Mock.a2 Mock.a3 Mock.a4 500000000 10000000000);
    try reflexivity.
  - intros abi args. eexists. reflexivity.
  - exact cooperative_world.
Defined.

(** C5: when the deployment of the proxy is rejected, the run ends with
    that very rejection, the rejected deployment is the last thing it did,
    and it has sent no write ([setVault], [setRebalancer], [authorizeCaller])
    and requested no contract handle. *)
Theorem proxy_failure_aborts (V : Viem) (env : gmap string string) (W : World)
    (events : list Event) (outcome : result unit)
    (account : Account.t) (args : list Value) (e : exn) :
  run W [] (main V env) = (events, outcome) ->
  rejected W events (DeployContract "TestProxy" account args) e ->
  outcome = Throw e /\
  last events = Some (Called (DeployContract "TestProxy" account args)) /\
  writes events = [] /\ handles events = [].
Proof.
  intros Hrun (before & after & Hsplit & Hrej).
  destruct (run_rejected W _ [] _ _ _ _ _ _ Hrun Hsplit Hrej) as [-> ->].
  assert (Hlast : last events = Some (Called (DeployContract "TestProxy" account args)))
    by (rewrite Hsplit; apply last_snoc).
  split; [reflexivity|]. split; [exact Hlast|].
  clear Hsplit Hrej.
  unfold main, deploy in Hrun. walk_in Hrun W.
  all: injection Hrun as <- _; cbn in Hlast; try discriminate Hlast.
  all: split; reflexivity.
Qed.

Lemma proxy_failure_aborts_witness :
  let W := Mock.world (Some "TestProxy") in
  let r := run W [] (main Mock.viem Mock.scenario) in
  deployments (fst r) = ["AaveV3Strategy"; "AttestifyVault"; "TestProxy"] /\
  snd r = Throw (ChainOperationFailure "RPC error") /\
  writes (fst r) = [] /\ handles (fst r) = [].
Proof.
  intros W r. split; [reflexivity|].
  destruct (proxy_failure_aborts Mock.viem Mock.scenario W (fst r) (snd r)
              (WalletClient.account Mock.deployer)
              [VString (Mock.addressOf "AttestifyVault"); VString "0xinitialize"]
              (ChainOperationFailure "RPC error"))
    as (Houtcome & _ & Hwrites & Hhandles).
  - apply surjective_pairing.
  - exists (removelast (fst r)), []. split; reflexivity.
  - auto.
Defined.

(** The condition of line 96. *)
Lemma rebalancer_condition (r : option Address) (d : Address) :
  negb (falsy r) && negb (String.eqb (r ?? "") d) = true <->
  exists a, r = Some a /\ a <> "" /\ a <> d.
Proof.
  destruct r as [a|]; simpl.
  - destruct (String.eqb_spec a ""), (String.eqb_spec a d); simpl; split;
      try discriminate; try (intros (? & [= <-] & ? & ?); congruence).
    intros _. eauto.
  - split; [discriminate|]. intros (? & ? & _). discriminate.
Qed.

(** C7: when [REBALANCER_ADDRESS] is the address of the deployer's account,
    no [setRebalancer] is sent; a [setRebalancer] is sent only for a
    rebalancer that is set, non-empty and different from that address, once,
    with the rebalancer as its argument; and for such a rebalancer it is
    sent as soon as [setVault] has been resolved. *)
Theorem rebalancer_gate (V : Viem) (env : gmap string string) (W : World)
    (events : list Event) (outcome : result unit)
    (deployer : WalletClient.t) (others : list WalletClient.t) :
  run W [] (main V env) = (events, outcome) ->
  resolved W events GetWalletClients (deployer :: others) ->
  let account := WalletClient.account deployer in
  (env !! "REBALANCER_ADDRESS" = Some (Account.address account) ->
   calls "setRebalancer" events = []) /\
  (calls "setRebalancer" events <> [] ->
   exists r target,
     env !! "REBALANCER_ADDRESS" = Some r /\ r <> "" /\
     r <> Account.address account /\
     calls "setRebalancer" events = [(target, [VString r])]) /\
  (forall r target args hash,
     env !! "REBALANCER_ADDRESS" = Some r -> r <> "" ->
     r <> Account.address account ->
     resolved W events (Write target "setVault" args account) hash ->
     exists vault, calls "setRebalancer" events = [(vault, [VString r])]).
Proof.
  intros Hrun (before & after & Hsplit & Hres) account. subst account.
  unfold main, deploy in Hrun. walk_in Hrun W.
  all: injection Hrun as Hevents Houtcome; rewrite <- Hevents in Hsplit.
  all: locate Hsplit.
  all: repeat match goal with
         | H : loadConfig _ _ = Ok _ |- _ =>
             apply loadConfig_Ok in H; cbn in H;
             destruct H as (_ & _ & _ & _ & _ & _ & _ & <- & _)
         | H : ?x = Ok (_ :: _), H' : ?x = Ok _ |- _ =>
             rewrite H in H'; first [discriminate H' | injection H' as <- <-]
         | H : negb (falsy _) && _ = true |- _ =>
             apply rebalancer_condition in H; destruct H as (? & -> & ? & ?)
         | H : negb (falsy _) && _ = false |- _ =>
             apply not_true_iff_false in H; rewrite rebalancer_condition in H
         end.
  all: cbn [calls String.eqb Ascii.eqb Bool.eqb nullish]; split; [|split].
  all: try solve [ intros; first [reflexivity | congruence] ].
  all: try solve [ intros Hne; first [ now destruct Hne | eauto 10 ] ].
  all: intros r target args hash Hr Hr1 Hr2 Hset.
  all: try solve [ injection Hr as <-; eauto ].
  all: try match goal with H : ~ _ |- _ => destruct H; solve [eauto] end.
  all: destruct Hset as (before & after' & Hsplit & Hres'); locate Hsplit.
  all: congruence.
Qed.

Lemma rebalancer_gate_witness :
  let env := <["REBALANCER_ADDRESS" := Mock.deployerAddress]> Mock.scenario in
  let r := run (Mock.world None) [] (main Mock.viem env) in
  snd r = Ok tt /\
  env !! "REBALANCER_ADDRESS" = Some (Account.address (WalletClient.account Mock.deployer)) /\
  calls "setRebalancer" (fst r) = [].
Proof.
  intros env r. split; [reflexivity|]. split; [reflexivity|].
  destruct (rebalancer_gate Mock.viem env (Mock.world None) (fst r) (snd r)
              Mock.deployer []) as (Hskip & _ & _).
  - apply surjective_pairing.
  - exists (firstn 2 (fst r)), (skipn 3 (fst r)). split; reflexivity.
  - apply Hskip. reflexivity.
Defined.

(** C9: whenever the proxy deployment is attempted, its constructor
    arguments are the address of the deployed implementation and the data
    that [encodeFunctionData] returned for [initialize], against the abi of
    the implementation, with the arguments asset, strategy address,
    verifier, maxUserDeposit and maxTotalDeposit in that order, the strategy
    address being the one the strategy deployment resolved to. *)
Theorem proxy_arguments (V : Viem) (env : gmap string string) (W : World)
    (events : list Event) (outcome : result unit)
    (account : Account.t) (args : list Value) :
  run W [] (main V env) = (events, outcome) ->
  In (Called (DeployContract "TestProxy" account args)) events ->
  exists cfg strategy implementation initData,
    loadConfig V env = Ok cfg /\
    resolved W events
      (DeployContract "AaveV3Strategy" account
         [VString (asset cfg); VString (aToken cfg); VString (addressesProvider cfg)])
      strategy /\
    resolved W events (DeployContract "AttestifyVault" account []) implementation /\
    encodeFunctionData V (Contract.abi implementation) "initialize"
      [VString (asset cfg); VString (Contract.address strategy);
       VString (verifier cfg); VBigInt (maxUserDeposit cfg);
       VBigInt (maxTotalDeposit cfg)] = Ok initData /\
    args = [VString (Contract.address implementation); VString initData].
Proof.
  intros Hrun Hin.
  unfold main, deploy in Hrun. walk_in Hrun W.
  all: injection Hrun as <- <-; among Hin.
  all: injection Hin as <- <-.
  all: do 4 eexists; split; [reflexivity|].
  all: split; [recorded|]; split; [recorded|]; split; [eassumption|reflexivity].
Qed.

Lemma proxy_arguments_witness :
  let r := run (Mock.world None) [] (main Mock.viem Mock.scenario) in
  exists cfg strategy implementation initData,
    loadConfig Mock.viem Mock.scenario = Ok cfg /\
    resolved (Mock.world None) (fst r)
      (DeployContract "AaveV3Strategy" (WalletClient.account Mock.deployer)
         [VString (asset cfg); VString (aToken cfg); VString (addressesProvider cfg)])
      strategy /\
    resolved (Mock.world None) (fst r)
      (DeployContract "AttestifyVault" (WalletClient.account Mock.deployer) [])
      implementation /\
    encodeFunctionData Mock.viem (Contract.abi implementation) "initialize"
      [VString (asset cfg); VString (Contract.address strategy);
       VString (verifier cfg); VBigInt (maxUserDeposit cfg);
       VBigInt (maxTotalDeposit cfg)] = Ok initData /\
    [VString (Mock.addressOf "AttestifyVault"); VString "0xinitialize"] =
    [VString (Contract.address implementation); VString initData].
Proof.
  intros r.
  apply (proxy_arguments Mock.viem Mock.scenario (Mock.world None) (fst r) (snd r)).
  - apply surjective_pairing.
  - vm_compute. auto 20.
Defined.

(** Removing [REBALANCER_ADDRESS] changes one field of what is loaded. *)
Lemma loadConfig_delete_rebalancer (V : Viem) (env : gmap string string) :
  loadConfig V (delete "REBALANCER_ADDRESS" env) =
  match loadConfig V env with
  | Ok cfg =>
      Ok {| asset := asset cfg; aToken := aToken cfg;
            addressesProvider := addressesProvider cfg; verifier := verifier cfg;
            maxUserDeposit := maxUserDeposit cfg;
            maxTotalDeposit := maxTotalDeposit cfg;
            assetDecimals := assetDecimals cfg;
            rebalancer := None;
            authorizeVaultOnVerifier := authorizeVaultOnVerifier cfg |}
  | Throw e => Throw e
  end.
Proof.
  unfold loadConfig, getAmountEnv, requireAddress.
  rewrite lookup_delete_eq, !lookup_delete_ne by discriminate.
  repeat match goal with
         | |- context [result_bind ?r _] => destruct r; simpl; try reflexivity
         end.
Qed.

(** C10: when [REBALANCER_ADDRESS] is the empty string, the loaded
    rebalancer is the empty string, which is falsy; no run sends
    [setRebalancer]; and the run is the same, event for event, as with the
    variable removed. *)
Theorem empty_rebalancer (V : Viem) (env : gmap string string) (W : World) :
  env !! "REBALANCER_ADDRESS" = Some "" ->
  (forall cfg, loadConfig V env = Ok cfg ->
               rebalancer cfg = Some "" /\ falsy (rebalancer cfg) = true) /\
  (forall events outcome,
      run W [] (main V env) = (events, outcome) ->
      calls "setRebalancer" events = []) /\
  run W [] (main V env) = run W [] (main V (delete "REBALANCER_ADDRESS" env)).
Proof.
  intros Hempty.
  assert (Hfield : forall cfg, loadConfig V env = Ok cfg -> rebalancer cfg = Some "").
  { intros cfg Hcfg. apply loadConfig_Ok in Hcfg. cbn in Hcfg.
    destruct Hcfg as (_ & _ & _ & _ & _ & _ & _ & -> & _). exact Hempty. }
  split; [|split].
  - intros cfg Hcfg. rewrite (Hfield cfg Hcfg). split; reflexivity.
  - intros events outcome Hrun. unfold main, deploy in Hrun.
    destruct (loadConfig V env) as [cfg|] eqn:Hcfg.
    + specialize (Hfield cfg eq_refl).
      walk_in Hrun W;
        try match goal with
            | H : negb (falsy _) && _ = true |- _ => rewrite Hfield in H; discriminate H
            end;
        injection Hrun as <- <-; reflexivity.
    + cbn in Hrun. injection Hrun as <- <-. reflexivity.
  - unfold main. rewrite loadConfig_delete_rebalancer.
    destruct (loadConfig V env) as [cfg|] eqn:Hcfg; [|reflexivity].
    specialize (Hfield cfg eq_refl). destruct cfg; cbn in Hfield; subst.
    reflexivity.
Qed.

Lemma empty_rebalancer_witness :
  let env := <["REBALANCER_ADDRESS" := ""]> Mock.scenario in
  env !! "REBALANCER_ADDRESS" = Some "" /\
  calls "setRebalancer" (fst (run (Mock.world None) [] (main Mock.viem env))) = [] /\
  run (Mock.world None) [] (main Mock.viem env) =
  run (Mock.world None) [] (main Mock.viem (delete "REBALANCER_ADDRESS" env)).
Proof.
  intros env. split; [reflexivity|].
  destruct (empty_rebalancer Mock.viem env (Mock.world None) eq_refl)
    as (_ & Hcalls & Hsame).
  split; [|exact Hsame].
  apply (Hcalls _ (snd (run (Mock.world None) [] (main Mock.viem env)))).
  apply surjective_pairing.
Defined.

(** ** What the loader refuses *)

Lemma falsy_missing (env : gmap string string) (name : string) :
  falsy (env !! name) = true ->
  requireAddress env name = Throw (MissingConfiguration name).
Proof. unfold requireAddress. intros ->. reflexivity. Qed.

(** What [requireAddress] throws is one of its two errors, for the
    variable it was asked for. *)
Lemma requireAddress_Throw (env : gmap string string) (name : string) (e : exn) :
  requireAddress env name = Throw e ->
  e = MissingConfiguration name \/ e = InvalidAddressFormat name.
Proof.
  rewrite requireAddress_unfold.
  destruct (env !! name) as [value|]; [|intros [= <-]; auto].
  destruct (String.eqb value ""); [intros [= <-]; auto|].
  destruct (String.prefix "0x" value && (String.length value =? 42)%nat);
    [discriminate|intros [= <-]; auto].
Qed.

(** When a required variable is refused, [loadConfig] throws what
    [requireAddress] threw for the first one refused in the order read:
    the variables before it are accepted, and the refused variable at hand
    is this one or comes after it. *)
Lemma loadConfig_first_refused (V : Viem) (env : gmap string string)
    (name : string) (e : exn) :
  In name required -> requireAddress env name = Throw e ->
  exists before first after e',
    required = before ++ first :: after /\
    Forall (fun n => exists a, requireAddress env n = Ok a) before /\
    (first = name \/ In name after) /\
    requireAddress env first = Throw e' /\
    loadConfig V env = Throw e'.
Proof.
  intros Hin Hname.
  assert (Hlater : forall n a rest,
             requireAddress env n = Ok a -> In name (n :: rest) -> In name rest).
  { intros n a rest Hn [->|Hrest]; [congruence|exact Hrest]. }
  assert (Hhere : forall n rest, In name (n :: rest) -> n = name \/ In name rest)
    by (intros n rest H; exact H).
  unfold required in Hin.
  destruct (requireAddress env "ASSET_ADDRESS") as [a1|e1] eqn:H1.
  2: { exists [], "ASSET_ADDRESS"; do 2 eexists.
       split; [reflexivity|]. split; [constructor|]. split; [apply Hhere, Hin|].
       split; [exact H1|]. unfold loadConfig. rewrite H1. reflexivity. }
  apply (Hlater _ _ _ H1) in Hin.
  destruct (requireAddress env "ATOKEN_ADDRESS") as [a2|e2] eqn:H2.
  2: { exists ["ASSET_ADDRESS"], "ATOKEN_ADDRESS"; do 2 eexists.
       split; [reflexivity|]. split; [repeat constructor; eauto|].
       split; [apply Hhere, Hin|].
       split; [exact H2|]. unfold loadConfig. rewrite H1, H2. reflexivity. }
  apply (Hlater _ _ _ H2) in Hin.
  destruct (requireAddress env "AAVE_PROVIDER_ADDRESS") as [a3|e3] eqn:H3.
  2: { exists ["ASSET_ADDRESS"; "ATOKEN_ADDRESS"], "AAVE_PROVIDER_ADDRESS"; do 2 eexists.
       split; [reflexivity|]. split; [repeat constructor; eauto|].
       split; [apply Hhere, Hin|].
       split; [exact H3|]. unfold loadConfig. rewrite H1, H2, H3. reflexivity. }
  apply (Hlater _ _ _ H3) in Hin.
  destruct (requireAddress env "VERIFIER_ADDRESS") as [a4|e4] eqn:H4.
  2: { exists ["ASSET_ADDRESS"; "ATOKEN_ADDRESS"; "AAVE_PROVIDER_ADDRESS"],
              "VERIFIER_ADDRESS"; do 2 eexists.
       split; [reflexivity|]. split; [repeat constructor; eauto|].
       split; [apply Hhere, Hin|].
       split; [exact H4|]. unfold loadConfig. rewrite H1, H2, H3, H4. reflexivity. }
  apply (Hlater _ _ _ H4) in Hin. destruct Hin.
Qed.

(** A run in which the loader throws does nothing else. *)
Lemma main_not_loaded (V : Viem) (env : gmap string string) (W : World) (e : exn) :
  loadConfig V env = Throw e -> run W [] (main V env) = ([], Throw e).
Proof. intros H. unfold main. rewrite H. reflexivity. Qed.

(** ** The addresses *)

(** C1 as stated fails on a 42-character string that starts with [0x] and
    has no hex digit after it: [requireAddress] returns it. *)
Lemma invalid_address_counterexample :
  let value := "0xzzzzzzzzzzzzzzzzzzzzzzzzzzzzzzzzzzzzzzzz" in
  let env : gmap string string := <["ASSET_ADDRESS" := value]> ∅ in
  is_address value = false /\
  requireAddress env "ASSET_ADDRESS" = Ok value.
Proof. split; reflexivity. Qed.

(** C1, amended: for a value that is set, [requireAddress] throws
    InvalidAddressFormat exactly when the value is not empty and does not
    start with [0x] or has a length other than 42, and [loadConfig] throws
    it too when the required variables read before this one are accepted; a
    42-character value that starts with [0x] is returned whatever its other
    characters are; and the empty value is reported as
    MissingConfiguration. *)
Theorem invalid_address_format (env : gmap string string) (name value : string) :
  env !! name = Some value ->
  (requireAddress env name = Throw (InvalidAddressFormat name) <->
   value <> "" /\ (String.prefix "0x" value = false \/ String.length value <> 42%nat)) /\
  (requireAddress env name = Ok value <->
   String.prefix "0x" value = true /\ String.length value = 42%nat) /\
  (value = "" -> requireAddress env name = Throw (MissingConfiguration name)) /\
  (forall V before after,
      required = before ++ name :: after ->
      Forall (fun n => exists a, requireAddress env n = Ok a) before ->
      value <> "" ->
      String.prefix "0x" value = false \/ String.length value <> 42%nat ->
      loadConfig V env = Throw (InvalidAddressFormat name)).
Proof.
  intros Hget.
  assert (Hcases :
    requireAddress env name =
    if String.eqb value "" then Throw (MissingConfiguration name)
    else if String.prefix "0x" value && (String.length value =? 42)%nat
         then Ok value else Throw (InvalidAddressFormat name))
    by (rewrite requireAddress_unfold, Hget; reflexivity).
  assert (Hinvalid :
    value <> "" ->
    String.prefix "0x" value = false \/ String.length value <> 42%nat ->
    requireAddress env name = Throw (InvalidAddressFormat name)).
  { intros Hne Hbad. rewrite Hcases.
    destruct (String.eqb_spec value ""); [contradiction|].
    destruct Hbad as [->|Hl]; [reflexivity|].
    apply Nat.eqb_neq in Hl. rewrite Hl, andb_false_r. reflexivity. }
  split; [|split; [|split]].
  - split; [|intros []; auto].
    rewrite Hcases.
    destruct (String.eqb_spec value "") as [->|Hne].
    + intros H. exfalso.
      apply (MissingConfiguration_not_InvalidAddressFormat name name). congruence.
    + destruct (String.prefix "0x" value); simpl; [|auto].
      destruct (Nat.eqb_spec (String.length value) 42); [discriminate|auto].
  - rewrite requireAddress_Ok. rewrite Hget. split; [intros (_ & ? & ?)|]; auto.
  - intros ->. rewrite Hcases. reflexivity.
  - intros V before after Hsplit Hbefore Hne Hbad.
    eapply loadConfig_first_failure; eauto.
Qed.

Lemma invalid_address_format_witness :
  let env : gmap string string := <["ATOKEN_ADDRESS" := "0x1234"]> Mock.addresses in
  env !! "ATOKEN_ADDRESS" = Some "0x1234" /\
  requireAddress env "ATOKEN_ADDRESS" = Throw (InvalidAddressFormat "ATOKEN_ADDRESS") /\
  loadConfig Mock.viem env = Throw (InvalidAddressFormat "ATOKEN_ADDRESS").
Proof.
  intros env.
  assert (Hget : env !! "ATOKEN_ADDRESS" = Some "0x1234") by reflexivity.
  split; [exact Hget|].
  destruct (invalid_address_format env "ATOKEN_ADDRESS" "0x1234" Hget)
    as (Hthrow & _ & _ & Hload).
  split.
  - apply Hthrow. split; [discriminate|]. right. cbn. lia.
  - apply (Hload Mock.viem ["ASSET_ADDRESS"]
             ["AAVE_PROVIDER_ADDRESS"; "VERIFIER_ADDRESS"]).
    + reflexivity.
    + repeat constructor. exists Mock.a1. reflexivity.
    + discriminate.
    + right. cbn. lia.
Defined.

(** C2 as stated fails for [ASSET_DECIMALS=abc]: [Number] yields NaN, which
    is what a configuration then holds, and no configuration holds 18. *)
Lemma asset_decimals_counterexample :
  let env : gmap string string := <["ASSET_DECIMALS" := "abc"]> Mock.addresses in
  JS.Number "abc" = JS.NaN /\
  (exists V cfg, loadConfig V env = Ok cfg /\ assetDecimals cfg = JS.NaN) /\
  ~ (exists V cfg, loadConfig V env = Ok cfg /\ assetDecimals cfg = JS.of_nat 18).
Proof.
  cbv zeta. split; [reflexivity|]. split.
  - exists {| parseUnits := fun _ _ => Ok 0;
              encodeFunctionData := fun _ _ _ => Ok "0x" |}.
    eexists. split; reflexivity.
  - intros (V & cfg & Hcfg & Hd). apply loadConfig_Ok in Hcfg.
    destruct Hcfg as (_ & _ & _ & _ & _ & _ & Hdec & _).
    rewrite Hd in Hdec. vm_compute in Hdec. discriminate Hdec.
Qed.

(** C2, amended: the [assetDecimals] of a loaded configuration is [Number]
    of [ASSET_DECIMALS], or of ["18"] when the variable is unset: 18 when
    unset, NaN when set to a string that [Number] does not read as a number,
    and 0 when set to the empty string. *)
Theorem asset_decimals (V : Viem) (env : gmap string string) (cfg : DeployConfig) :
  loadConfig V env = Ok cfg ->
  assetDecimals cfg = JS.Number (env !! "ASSET_DECIMALS" ?? "18") /\
  (env !! "ASSET_DECIMALS" = None -> assetDecimals cfg = JS.of_nat 18) /\
  (forall s, env !! "ASSET_DECIMALS" = Some s ->
             assetDecimals cfg = JS.Number s /\
             (JS.Number s = JS.NaN -> assetDecimals cfg = JS.NaN) /\
             (s = "" -> assetDecimals cfg = JS.of_nat 0)).
Proof.
  intros Hcfg. apply loadConfig_Ok in Hcfg.
  destruct Hcfg as (_ & _ & _ & _ & _ & _ & Hdec & _). cbv zeta in Hdec.
  split; [exact Hdec|]. split.
  - intros Hnone. rewrite Hdec, Hnone. reflexivity.
  - intros s Hs. rewrite Hdec, Hs. simpl. split; [reflexivity|]. split.
    + auto.
    + intros ->. reflexivity.
Qed.

Lemma asset_decimals_witness :
  exists cfg, loadConfig Mock.viem Mock.addresses = Ok cfg /\
              assetDecimals cfg = JS.of_nat 18.
Proof.
  eexists. split; [reflexivity|].
  apply (asset_decimals Mock.viem Mock.addresses); reflexivity.
Defined.

(** C4 as stated fails when a required variable read earlier is refused
    for its format: with [ASSET_ADDRESS=0x1234] and [ATOKEN_ADDRESS] absent,
    the error is InvalidAddressFormat for [ASSET_ADDRESS]. *)
Lemma missing_configuration_counterexample :
  let env : gmap string string := <["ASSET_ADDRESS" := "0x1234"]> ∅ in
  In "ATOKEN_ADDRESS" required /\
  env !! "ATOKEN_ADDRESS" = None /\
  loadConfig Mock.viem env = Throw (InvalidAddressFormat "ASSET_ADDRESS") /\
  loadConfig Mock.viem env <> Throw (MissingConfiguration "ATOKEN_ADDRESS").
Proof.
  cbv zeta. split; [cbn; auto|]. split; [reflexivity|]. split; [reflexivity|].
  vm_compute. discriminate.
Qed.

(** C4, amended: a required address variable that is absent or empty makes
    [requireAddress] throw MissingConfiguration naming it, and makes the
    script stop in [loadConfig] before any chain operation and any output.
    What [loadConfig] throws is the error of the first required variable
    refused in the order read: every required variable before that one is
    accepted, that one is the absent variable or one read before it, and
    the error is its MissingConfiguration or its InvalidAddressFormat.  It
    is MissingConfiguration naming the absent variable when the required
    variables read before it are accepted. *)
Theorem missing_configuration (V : Viem) (env : gmap string string) (W : World)
    (name : string) :
  In name required ->
  falsy (env !! name) = true ->
  requireAddress env name = Throw (MissingConfiguration name) /\
  (exists before first after e,
      required = before ++ first :: after /\
      Forall (fun n => exists a, requireAddress env n = Ok a) before /\
      (first = name \/ In name after) /\
      (e = MissingConfiguration first \/ e = InvalidAddressFormat first) /\
      requireAddress env first = Throw e /\
      loadConfig V env = Throw e /\
      run W [] (main V env) = ([], Throw e)) /\
  (forall before after,
      required = before ++ name :: after ->
      Forall (fun n => exists a, requireAddress env n = Ok a) before ->
      loadConfig V env = Throw (MissingConfiguration name) /\
      run W [] (main V env) = ([], Throw (MissingConfiguration name))).
Proof.
  intros Hin Hmissing.
  pose proof (falsy_missing env name Hmissing) as Hname.
  split; [exact Hname|]. split.
  - destruct (loadConfig_first_refused V env name _ Hin Hname)
      as (before & first & after & e & Hsplit & Hbefore & Hpos & Hfirst & Hload).
    exists before, first, after, e.
    repeat split; eauto using main_not_loaded, requireAddress_Throw.
  - intros before after Hsplit Hbefore.
    pose proof (loadConfig_first_failure V env before after name _ Hsplit Hbefore Hname).
    auto using main_not_loaded.
Qed.

Lemma missing_configuration_witness :
  let env : gmap string string := <["ASSET_ADDRESS" := Mock.a1]> ∅ in
  (In "ATOKEN_ADDRESS" required /\ falsy (env !! "ATOKEN_ADDRESS") = true) /\
  requireAddress env "ATOKEN_ADDRESS" = Throw (MissingConfiguration "ATOKEN_ADDRESS") /\
  loadConfig Mock.viem env = Throw (MissingConfiguration "ATOKEN_ADDRESS") /\
  run (Mock.world None) [] (main Mock.viem env) =
    ([], Throw (MissingConfiguration "ATOKEN_ADDRESS")).
Proof.
  intros env.
  assert (Hin : In "ATOKEN_ADDRESS" required) by (cbn; auto).
  assert (Hmissing : falsy (env !! "ATOKEN_ADDRESS") = true) by reflexivity.
  split; [split; assumption|].
  destruct (missing_configuration Mock.viem env (Mock.world None) "ATOKEN_ADDRESS"
              Hin Hmissing) as (Hname & _ & Hfirst).
  destruct (Hfirst ["ASSET_ADDRESS"]
              ["AAVE_PROVIDER_ADDRESS"; "VERIFIER_ADDRESS"]) as [Hload Hrun].
  - reflexivity.
  - repeat constructor. exists Mock.a1. reflexivity.
  - auto.
Defined.

(** C6: in a loaded configuration [authorizeVaultOnVerifier] is true
    exactly when [AUTHORIZE_VAULT] is the string [true]; it is false for
    [TRUE], for [1], when unset, and for any other string. *)
Theorem authorize_flag (V : Viem) (env : gmap string string) (cfg : DeployConfig) :
  loadConfig V env = Ok cfg ->
  (authorizeVaultOnVerifier cfg = true <-> env !! "AUTHORIZE_VAULT" = Some "true") /\
  (env !! "AUTHORIZE_VAULT" = Some "TRUE" -> authorizeVaultOnVerifier cfg = false) /\
  (env !! "AUTHORIZE_VAULT" = Some "1" -> authorizeVaultOnVerifier cfg = false) /\
  (env !! "AUTHORIZE_VAULT" = None -> authorizeVaultOnVerifier cfg = false) /\
  (forall s, env !! "AUTHORIZE_VAULT" = Some s -> s <> "true" ->
             authorizeVaultOnVerifier cfg = false).
Proof.
  intros Hcfg. apply loadConfig_Ok in Hcfg.
  destruct Hcfg as (_ & _ & _ & _ & _ & _ & _ & _ & Hflag). rewrite Hflag.
  split; [apply bool_decide_eq_true|].
  repeat split; intros; apply bool_decide_eq_false; congruence.
Qed.

Lemma authorize_flag_witness :
  let env : gmap string string := <["AUTHORIZE_VAULT" := "true"]> Mock.addresses in
  exists cfg, loadConfig Mock.viem env = Ok cfg /\ authorizeVaultOnVerifier cfg = true.
Proof.
  intros env. eexists. split; [reflexivity|].
  apply (authorize_flag Mock.viem env); reflexivity.
Defined.

(** ** The amounts *)

Lemma digit_in_10 (c : ascii) (d : N) :
  JS.digit_in 10 c = Some d -> Units.is_digit c = true /\ d = (JS.code c - 48)%N.
Proof.
  unfold JS.digit_in, Units.is_digit.
  destruct ((48 <=? JS.code c) && (JS.code c <=? 57))%N eqn:H09.
  - destruct (JS.code c - 48 <? 10)%N; [|discriminate]. intros [= <-]. auto.
  - destruct ((97 <=? JS.code c) && (JS.code c <=? 122))%N eqn:Haz.
    + apply andb_prop in Haz as [Ha%N.leb_le _].
      destruct (N.ltb_spec (JS.code c - 87) 10); [lia|discriminate].
    + destruct ((65 <=? JS.code c) && (JS.code c <=? 90))%N eqn:HAZ; [|discriminate].
      apply andb_prop in HAZ as [Ha%N.leb_le _].
      destruct (N.ltb_spec (JS.code c - 55) 10); [lia|discriminate].
Qed.

(** What [JS.digits] has read is a digit string, and what it returns is its
    value and its length. *)
Lemma digits_10 (s : string) :
  forall (acc : N) (len : nat) (v : N) (len' : nat) (rest : string),
    JS.digits 10 s acc len = (v, len', rest) ->
    exists ds, s = ds +:+ rest /\ Units.digit_string ds = true /\
               v = Units.value_of ds acc /\ len' = (len + String.length ds)%nat.
Proof.
  induction s as [|c s IH]; intros acc len v len' rest; simpl.
  - intros [= <- <- <-]. exists "". simpl. auto with arith.
  - destruct (JS.digit_in 10 c) as [d|] eqn:Hd.
    + apply digit_in_10 in Hd as [Hc ->]. intros H.
      apply IH in H as (ds & -> & Hds & -> & ->).
      exists (String c ds). simpl. rewrite Hc, Hds.
      repeat split; auto with arith; lia.
    + intros [= <- <- <-]. exists "". simpl. auto with arith.
Qed.

Lemma sign_split (raw : string) :
  match raw with
  | String "-" t => (true, t)
  | _ => (false, raw)
  end =
  match raw with
  | String c t => if Ascii.eqb c "-" then (true, t) else (false, raw)
  | EmptyString => (false, raw)
  end.
Proof. destruct raw as [|[[] [] [] [] [] [] [] []] t]; reflexivity. Qed.

Lemma append_empty (s : string) : s +:+ "" = s.
Proof.
  induction s as [|c s IH]; [reflexivity|].
  change (String c s +:+ "") with (String c (s +:+ "")). now rewrite IH.
Qed.

(** [parseUnits] accepts only the spellings of the numerals that are
    integers at the scale, and returns the scaled numeral. *)
Lemma parseUnits_Ok (raw : string) (decimals : number) (z : Z) :
  Units.parseUnits raw decimals = Ok z ->
  exists d x,
    JS.to_nat decimals = Some d /\ Units.well_formed x /\
    Units.spelling x = raw /\ Units.scaled x d = Some z.
Proof.
  unfold Units.parseUnits. rewrite sign_split.
  assert (Hbody : forall (neg : bool) (body : string),
    match JS.to_nat decimals, JS.digits 10 body 0%N O with
    | Some d, (ip, S _, EmptyString) =>
        Ok ((if neg then Z.opp else id) (Z.of_N ip * 10 ^ Z.of_nat d))
    | Some d, (ip, S _, String "." t) =>
        match JS.digits 10 t ip O with
        | (units, S _ as places, EmptyString) =>
            if Z.of_N units * 10 ^ Z.of_nat d mod 10 ^ Z.of_nat places =? 0
            then Ok ((if neg then Z.opp else id)
                       (Z.of_N units * 10 ^ Z.of_nat d / 10 ^ Z.of_nat places))
            else Throw (InvalidAmountFormat raw)
        | _ => Throw (InvalidAmountFormat raw)
        end
    | _, _ => Throw (InvalidAmountFormat raw)
    end = Ok z ->
    exists d i f,
      JS.to_nat decimals = Some d /\
      Units.well_formed {| Units.negative := neg; Units.integral := i;
                           Units.fractional := f |} /\
      body = i +:+ match f with EmptyString => "" | _ => "." +:+ f end /\
      Units.scaled {| Units.negative := neg; Units.integral := i;
                      Units.fractional := f |} d = Some z).
  { intros neg body. destruct (JS.to_nat decimals) as [d|]; [|discriminate].
    destruct (JS.digits 10 body 0%N O) as [[ip ilen] rest] eqn:Hint.
    apply digits_10 in Hint as (i & -> & Hi & -> & ->).
    destruct i as [|c i]; [simpl; destruct rest as [|[[] [] [] [] [] [] [] []] ?]; discriminate|].
    cbn [Nat.add String.length].
    destruct rest as [|c' t].
    - intros [= <-]. exists d, (String c i), "".
      split; [reflexivity|]. split; [repeat split; [discriminate|exact Hi]|].
      split; [reflexivity|].
      unfold Units.scaled. cbn [Units.fractional Units.integral Units.negative
                                 String.length Units.value_of].
      change (10 ^ Z.of_nat 0) with 1. rewrite Z.mod_1_r, Z.div_1_r. reflexivity.
    - destruct (Ascii.eqb_spec c' ".") as [->|Hne].
      + destruct (JS.digits 10 t (Units.value_of (String c i) 0) O)
          as [[units places] rest] eqn:Hfrac.
        apply digits_10 in Hfrac as (f & -> & Hf & -> & ->).
        destruct f as [|cf f]; [simpl; destruct rest; discriminate|].
        cbn [Nat.add String.length].
        destruct rest; [|discriminate].
        destruct (_ =? 0) eqn:Hmod; [|discriminate].
        intros [= <-]. exists d, (String c i), (String cf f).
        split; [reflexivity|]. split; [repeat split; [discriminate|exact Hi|exact Hf]|].
        split; [rewrite append_empty; reflexivity|].
        unfold Units.scaled. cbn [Units.fractional Units.integral Units.negative].
        cbn [String.length] in *. rewrite Hmod. reflexivity.
      + destruct c' as [[] [] [] [] [] [] [] []]; try discriminate.
        now destruct Hne. }
  destruct raw as [|c t].
  - intros H. apply (Hbody false "") in H as (d & i & f & _ & (Hi & _) & Hsp & _).
    destruct i; [now destruct Hi|discriminate].
  - destruct (Ascii.eqb_spec c "-") as [->|Hne].
    + intros H. apply (Hbody true t) in H as (d & i & f & Hd & Hwf & -> & Hsc).
      exists d, {| Units.negative := true; Units.integral := i; Units.fractional := f |}.
      clear Hbody. repeat split; try apply Hwf; auto. destruct f; reflexivity.
    + intros H. apply (Hbody false _) in H as (d & i & f & Hd & Hwf & Hsp & Hsc).
      exists d, {| Units.negative := false; Units.integral := i; Units.fractional := f |}.
      clear Hbody. repeat split; try apply Hwf; auto.
      rewrite Hsp. destruct f; reflexivity.
Qed.

Lemma parseUnits_Throw (raw : string) (decimals : number) (e : exn) :
  Units.parseUnits raw decimals = Throw e -> e = InvalidAmountFormat raw.
Proof.
  unfold Units.parseUnits.
  destruct (match raw with String "-" t => (true, t) | _ => (false, raw) end) as [neg body].
  destruct (JS.to_nat decimals); [|congruence].
  destruct (JS.digits 10 body 0%N O) as [[ip [|ilen]] rest]; [congruence|].
  destruct rest as [|[[] [] [] [] [] [] [] []] t]; try congruence.
  destruct (JS.digits 10 t ip O) as [[units [|places]] rest]; [congruence|].
  destruct rest; [|congruence].
  destruct (_ =? 0); congruence.
Qed.

Lemma digit_in_10_digit (c : ascii) :
  JS.digit_in 10 c =
  if Units.is_digit c then Some (JS.code c - 48)%N else None.
Proof.
  destruct (JS.digit_in 10 c) as [d|] eqn:Hd.
  - apply digit_in_10 in Hd as [-> ->]. reflexivity.
  - destruct (Units.is_digit c) eqn:Hc; [|reflexivity].
    unfold JS.digit_in in Hd. unfold Units.is_digit in Hc. rewrite Hc in Hd.
    apply andb_prop in Hc as [_ Hc%N.leb_le].
    destruct (N.ltb_spec (JS.code c - 48) 10); [discriminate|lia].
Qed.

(** [JS.digits] reads a digit string to its end. *)
Lemma digits_10_app (ds rest : string) :
  Units.digit_string ds = true ->
  match rest with
  | EmptyString => True
  | String c _ => Units.is_digit c = false
  end ->
  forall (acc : N) (len : nat),
    JS.digits 10 (ds +:+ rest) acc len =
    (Units.value_of ds acc, (len + String.length ds)%nat, rest).
Proof.
  intros Hds Hrest. induction ds as [|c ds IH]; intros acc len.
  - change ("" +:+ rest) with rest. simpl. rewrite Nat.add_0_r.
    destruct rest as [|c r]; [reflexivity|].
    simpl. rewrite digit_in_10_digit, Hrest. reflexivity.
  - simpl in Hds. apply andb_prop in Hds as [Hc Hds].
    change (String c ds +:+ rest) with (String c (ds +:+ rest)).
    simpl. rewrite digit_in_10_digit, Hc, (IH Hds). f_equal. f_equal. lia.
Qed.

(** On the spelling of a numeral, [parseUnits] returns the numeral scaled
    when that is an integer, and fails when it is not. *)
Lemma parseUnits_spelling (x : Units.numeral) (decimals : number) (d : nat) :
  Units.well_formed x -> JS.to_nat decimals = Some d ->
  Units.parseUnits (Units.spelling x) decimals =
  match Units.scaled x d with
  | Some z => Ok z
  | None => Throw (InvalidAmountFormat (Units.spelling x))
  end.
Proof.
  destruct x as [neg i f]. intros (Hne & Hi & Hf) Hd. simpl in Hne, Hi, Hf.
  destruct i as [|c i]; [now destruct Hne|].
  pose proof Hi as Hc. simpl in Hc. apply andb_prop in Hc as [Hc _].
  unfold Units.parseUnits. rewrite sign_split, Hd.
  set (M := match f with EmptyString => "" | String _ _ => "." +:+ f end).
  assert (Hraw : Units.spelling {| Units.negative := neg; Units.integral := String c i;
                                   Units.fractional := f |} =
                 (if neg then "-" else "") +:+ String c i +:+ M)
    by (unfold Units.spelling, M; destruct f; reflexivity).
  rewrite Hraw. clear Hraw.
  assert (Hbody :
    (let '(neg', body) :=
       match (if neg then "-" else "") +:+ String c i +:+ M with
       | String c0 t => if Ascii.eqb c0 "-" then (true, t)
                        else (false, (if neg then "-" else "") +:+ String c i +:+ M)
       | EmptyString => (false, (if neg then "-" else "") +:+ String c i +:+ M)
       end in (neg', body)) = (neg, String c i +:+ M)).
  { destruct neg; [reflexivity|].
    change ("" +:+ String c i +:+ M) with (String c (i +:+ M)).
    cbv beta iota. destruct (Ascii.eqb c "-") eqn:E; [|reflexivity].
    apply Ascii.eqb_eq in E. subst c. discriminate Hc. }
  destruct (match (if neg then "-" else "") +:+ String c i +:+ M with
            | String c0 t => _ | EmptyString => _ end) as [neg' body].
  injection Hbody as -> ->.
  rewrite (digits_10_app (String c i) M Hi)
    by (unfold M; destruct f; [exact I|reflexivity]).
  cbn [Nat.add String.length].
  unfold Units.scaled. cbn [Units.fractional Units.integral Units.negative].
  unfold M. destruct f as [|cf f].
  - cbn [String.length Units.value_of]. change (10 ^ Z.of_nat 0) with 1.
    rewrite Z.mod_1_r, Z.div_1_r. reflexivity.
  - change ("." +:+ String cf f) with (String "."%char (String cf f)). cbv iota.
    rewrite <- (append_empty (String cf f)) at 1.
    rewrite (digits_10_app (String cf f) "" Hf I).
    cbn [Nat.add String.length].
    destruct (_ =? 0); reflexivity.
Qed.

(** C8: with viem's [parseUnits], [getAmountEnv] on a variable set to
    [1000] at 18 decimals returns 1000 * 10^18; on a string that spells no
    decimal numeral that is an integer at the scale it throws
    InvalidAmountFormat for that string; and on an unset variable it returns
    what [parseUnits] returns for the fallback. *)
Theorem getAmountEnv_amount (V : Viem) (env : gmap string string)
    (name fallback : string) :
  parseUnits V = Units.parseUnits ->
  (env !! name = Some "1000" ->
   getAmountEnv V env name (JS.of_nat 18) fallback = Ok (1000 * 10 ^ 18)) /\
  (forall decimals raw,
     env !! name ?? fallback = raw ->
     (forall d x, JS.to_nat decimals = Some d -> Units.well_formed x ->
                  Units.spelling x = raw -> Units.scaled x d = None) ->
     getAmountEnv V env name decimals fallback = Throw (InvalidAmountFormat raw)) /\
  (forall decimals,
     env !! name = None ->
     getAmountEnv V env name decimals fallback = Units.parseUnits fallback decimals).
Proof.
  intros HV. unfold getAmountEnv. rewrite HV. split; [|split].
  - intros ->. reflexivity.
  - intros decimals raw -> Hnone.
    destruct (Units.parseUnits _ decimals) as [z|e] eqn:Hparse.
    + apply parseUnits_Ok in Hparse as (d & x & Hd & Hwf & Hsp & Hsc).
      rewrite (Hnone d x Hd Hwf Hsp) in Hsc. discriminate Hsc.
    + apply parseUnits_Throw in Hparse as ->. reflexivity.
  - intros decimals ->. reflexivity.
Qed.

Lemma getAmountEnv_amount_witness :
  let env : gmap string string :=
    <["MAX_USER_DEPOSIT" := "1000"]> (<["TREASURY_CAP" := "1e3"]> ∅) in
  getAmountEnv Mock.viem env "MAX_USER_DEPOSIT" (JS.of_nat 18) "1000" =
    Ok 1000000000000000000000 /\
  getAmountEnv Mock.viem env "TREASURY_CAP" (JS.of_nat 18) "1000" =
    Throw (InvalidAmountFormat "1e3") /\
  getAmountEnv Mock.viem env "MAX_TOTAL_DEPOSIT" (JS.of_nat 18) "10000" =
    Ok 10000000000000000000000.
Proof.
  intros env. split; [|split].
  - destruct (getAmountEnv_amount Mock.viem env "MAX_USER_DEPOSIT" "1000" eq_refl)
      as (Hset & _ & _).
    exact (Hset eq_refl).
  - destruct (getAmountEnv_amount Mock.viem env "TREASURY_CAP" "1000" eq_refl)
      as (_ & Hbad & _).
    apply Hbad; [reflexivity|].
    intros d x Hd Hwf Hsp.
    pose proof (parseUnits_spelling x (JS.of_nat 18) d Hwf Hd) as Hparse.
    rewrite Hsp in Hparse.
    destruct (Units.scaled x d); [vm_compute in Hparse; discriminate Hparse|reflexivity].
  - destruct (getAmountEnv_amount Mock.viem env "MAX_TOTAL_DEPOSIT" "10000" eq_refl)
      as (_ & _ & Hunset).
    rewrite Hunset; reflexivity.
Defined.

(** ** The loader as a whole *)

(** X1: [loadConfig] throws exactly what its first failing read throws: the
    error of the first required address variable that [requireAddress]
    refuses, in the order written; or, when the four addresses are
    accepted, the error of [getAmountEnv] for [MAX_USER_DEPOSIT]; or, when
    that amount is parsed too, the error of [getAmountEnv] for
    [MAX_TOTAL_DEPOSIT].  Nothing else makes it throw. *)
Theorem loadConfig_Throw (V : Viem) (env : gmap string string) (e : exn) :
  let decimals := JS.Number (env !! "ASSET_DECIMALS" ?? "18") in
  loadConfig V env = Throw e <->
  (exists before name after,
      required = before ++ name :: after /\
      Forall (fun n => exists a, requireAddress env n = Ok a) before /\
      requireAddress env name = Throw e) \/
  (Forall (fun n => exists a, requireAddress env n = Ok a) required /\
   (getAmountEnv V env "MAX_USER_DEPOSIT" decimals "1000" = Throw e \/
    (exists user, getAmountEnv V env "MAX_USER_DEPOSIT" decimals "1000" = Ok user) /\
    getAmountEnv V env "MAX_TOTAL_DEPOSIT" decimals "10000" = Throw e)).
Proof.
  cbv zeta. split.
  - unfold loadConfig.
    destruct (requireAddress env "ASSET_ADDRESS") as [a1|e1] eqn:H1; simpl;
      [|intros [= ->]; left; exists [], "ASSET_ADDRESS"; eexists;
        split; [reflexivity|]; split; [constructor|exact H1]].
    destruct (requireAddress env "ATOKEN_ADDRESS") as [a2|e2] eqn:H2; simpl;
      [|intros [= ->]; left; exists ["ASSET_ADDRESS"], "ATOKEN_ADDRESS"; eexists;
        split; [reflexivity|]; split; [repeat constructor; eauto|exact H2]].
    destruct (requireAddress env "AAVE_PROVIDER_ADDRESS") as [a3|e3] eqn:H3; simpl;
      [|intros [= ->]; left;
        exists ["ASSET_ADDRESS"; "ATOKEN_ADDRESS"], "AAVE_PROVIDER_ADDRESS"; eexists;
        split; [reflexivity|]; split; [repeat constructor; eauto|exact H3]].
    destruct (requireAddress env "VERIFIER_ADDRESS") as [a4|e4] eqn:H4; simpl;
      [|intros [= ->]; left;
        exists ["ASSET_ADDRESS"; "ATOKEN_ADDRESS"; "AAVE_PROVIDER_ADDRESS"],
               "VERIFIER_ADDRESS"; eexists;
        split; [reflexivity|]; split; [repeat constructor; eauto|exact H4]].
    intros Hamounts. right. split; [repeat constructor; eauto|].
    destruct (getAmountEnv V env "MAX_USER_DEPOSIT" _ "1000") as [user|eu]; simpl in Hamounts;
      [|left; congruence].
    right. split; [eauto|].
    destruct (getAmountEnv V env "MAX_TOTAL_DEPOSIT" _ "10000"); simpl in Hamounts;
      [discriminate Hamounts|congruence].
  - intros [(before & name & after & Hsplit & Hbefore & Hname)|[Hall Hamounts]].
    + eapply loadConfig_first_failure; eauto.
    + unfold required in Hall.
      repeat match goal with
             | H : Forall _ (_ :: _) |- _ => apply Forall_cons_iff in H as [[? ?] H]
             end.
      unfold loadConfig.
      repeat match goal with
             | H : requireAddress env _ = Ok _ |- _ => rewrite H; clear H
             end.
      simpl. destruct Hamounts as [->|[[user ->] ->]]; reflexivity.
Qed.

(** X2: [REBALANCER_ADDRESS] is not validated: setting it to any string changes
    neither whether [loadConfig] succeeds nor what it throws, and the
    string is the [rebalancer] of the configuration, every other field
    unchanged. *)
Theorem rebalancer_unvalidated (V : Viem) (env : gmap string string) (r : string) :
  loadConfig V (<["REBALANCER_ADDRESS" := r]> env) =
  (cfg <-? loadConfig V env;
   Ok {| asset := asset cfg; aToken := aToken cfg;
         addressesProvider := addressesProvider cfg; verifier := verifier cfg;
         maxUserDeposit := maxUserDeposit cfg;
         maxTotalDeposit := maxTotalDeposit cfg;
         assetDecimals := assetDecimals cfg;
         rebalancer := Some r;
         authorizeVaultOnVerifier := authorizeVaultOnVerifier cfg |}).
Proof.
  unfold loadConfig, getAmountEnv, requireAddress.
  rewrite lookup_insert_eq, !lookup_insert_ne by discriminate.
  repeat match goal with
         | |- context [result_bind ?x _] =>
             lazymatch x with
             | result_bind _ _ => fail
             | _ => destruct x; simpl; try reflexivity
             end
         end.
Qed.

(** X3: the script reads nine variables: two environments that agree on them
    load the same configuration, or throw the same error, and give the same
    script. *)
Theorem environment_frame (V : Viem) (env env' : gmap string string) :
  (forall name, In name variables -> env !! name = env' !! name) ->
  loadConfig V env = loadConfig V env' /\
  main V env = main V env'.
Proof.
  intros Hsame.
  assert (Hload : loadConfig V env = loadConfig V env').
  { unfold loadConfig, getAmountEnv, requireAddress.
    rewrite !Hsame by (cbn; auto 12). reflexivity. }
  split; [exact Hload|]. unfold main. rewrite Hload. reflexivity.
Qed.

Lemma environment_frame_witness :
  let env' : gmap string string := <["HOME" := "/root"]> Mock.scenario in
  loadConfig Mock.viem Mock.scenario = loadConfig Mock.viem env' /\
  main Mock.viem Mock.scenario = main Mock.viem env'.
Proof.
  intros env'. apply environment_frame.
  intros name Hin. cbn in Hin.
  repeat (destruct Hin as [<-|Hin]; [reflexivity|]). destruct Hin.
Defined.

(** X4: in a loaded configuration both amounts are what [getAmountEnv] returns
    at the configuration's own [assetDecimals]; an amount variable set to
    the empty string is not replaced by its default but parsed as it is. *)
Theorem amounts_scale (V : Viem) (env : gmap string string) (cfg : DeployConfig) :
  loadConfig V env = Ok cfg ->
  getAmountEnv V env "MAX_USER_DEPOSIT" (assetDecimals cfg) "1000" =
    Ok (maxUserDeposit cfg) /\
  getAmountEnv V env "MAX_TOTAL_DEPOSIT" (assetDecimals cfg) "10000" =
    Ok (maxTotalDeposit cfg) /\
  (env !! "MAX_USER_DEPOSIT" = Some "" ->
   parseUnits V "" (assetDecimals cfg) = Ok (maxUserDeposit cfg)) /\
  (env !! "MAX_TOTAL_DEPOSIT" = Some "" ->
   parseUnits V "" (assetDecimals cfg) = Ok (maxTotalDeposit cfg)).
Proof.
  intros Hcfg. apply loadConfig_Ok in Hcfg. cbv zeta in Hcfg.
  destruct Hcfg as (_ & _ & _ & _ & Huser & Htotal & -> & _).
  unfold getAmountEnv. repeat split; try assumption.
  - intros Hempty. rewrite Hempty in Huser. exact Huser.
  - intros Hempty. rewrite Hempty in Htotal. exact Htotal.
Qed.

Lemma amounts_scale_witness :
  exists cfg,
    loadConfig Mock.viem Mock.scenario = Ok cfg /\
    getAmountEnv Mock.viem Mock.scenario "MAX_USER_DEPOSIT" (assetDecimals cfg) "1000" =
      Ok (maxUserDeposit cfg) /\
    maxUserDeposit cfg = 500000000 /\ maxTotalDeposit cfg = 10000000000.
Proof.
  eexists. split; [reflexivity|]. split; [|split; reflexivity].
  apply (amounts_scale Mock.viem Mock.scenario). reflexivity.
Defined.

(** ** The sequence as a whole *)

(** X5: whichever operation of the client is rejected, the run ends there with
    that rejection: the rejected operation is the last event, and the
    final report is not written. *)
Theorem rejection_ends_run (V : Viem) (env : gmap string string) (W : World)
    (events : list Event) (outcome : result unit) (o : Op) (e : exn) :
  run W [] (main V env) = (events, outcome) ->
  rejected W events o e ->
  outcome = Throw e /\ last events = Some (Called o) /\ report events = [].
Proof.
  intros Hrun (before & after & Hsplit & Hrej).
  destruct (run_rejected W _ [] _ _ _ _ _ _ Hrun Hsplit Hrej) as [-> ->].
  split; [reflexivity|]. split; [rewrite Hsplit; apply last_snoc|].
  clear Hsplit Hrej.
  unfold main, deploy in Hrun. walk_in Hrun W.
  all: injection Hrun as <- Hout; first [discriminate Hout | reflexivity].
Qed.

Lemma rejection_ends_run_witness :
  let W := Mock.world (Some "AaveV3Strategy") in
  let r := run W [] (main Mock.viem Mock.scenario) in
  snd r = Throw (ChainOperationFailure "RPC error") /\
  last (fst r) =
    Some (Called (DeployContract "AaveV3Strategy" Mock.account
                    [VString Mock.a1; VString Mock.a2; VString Mock.a3])) /\
  report (fst r) = [].
Proof.
  intros W r.
  apply (rejection_ends_run Mock.viem Mock.scenario W (fst r) (snd r)).
  - apply surjective_pairing.
  - exists (removelast (fst r)), []. split; reflexivity.
Defined.

(** X6: the operations of a run start with connect, getPublicClient,
    getWalletClients and getChainId in that order, none of them is
    repeated later, and a run that did anything has loaded its
    configuration. *)
Theorem connection_first (V : Viem) (env : gmap string string) (W : World) :
  let '(events, outcome) := run W [] (main V env) in
  let setup := [Connect; GetPublicClient; GetWalletClients; GetChainId] in
  (operations events `prefix_of` setup \/ setup `prefix_of` operations events) /\
  Forall (fun o => ~ In o setup) (drop 4 (operations events)) /\
  (events <> [] -> exists cfg, loadConfig V env = Ok cfg).
Proof.
  destruct (run W [] (main V env)) as [events outcome] eqn:Hrun.
  unfold main, deploy in Hrun. walk_in Hrun W.
  all: injection Hrun as <- <-; cbv zeta.
  all: split; [first [left; eexists; reflexivity | right; eexists; reflexivity]|].
  all: split; [|intros H; first [now destruct H | eexists; reflexivity]].
  all: cbn; repeat constructor.
  all: intros [H|[H|[H|[H|[]]]]]; discriminate H.
Qed.

(** X7: when [getWalletClients] resolves to no client, the run ends with a
    TypeError on reading [deployer.account], after the three connection
    operations and before any output or deployment. *)
Theorem no_wallet_client (V : Viem) (env : gmap string string) (W : World)
    (events : list Event) (outcome : result unit) :
  run W [] (main V env) = (events, outcome) ->
  resolved W events GetWalletClients [] ->
  events = [Called Connect; Called GetPublicClient; Called GetWalletClients] /\
  outcome = Throw (TypeError "Cannot read properties of undefined (reading 'account')").
Proof.
  intros Hrun (before & after & Hsplit & Hres).
  unfold main, deploy in Hrun. walk_in Hrun W.
  all: injection Hrun as Hevents Houtcome; rewrite <- Hevents in Hsplit.
  all: locate Hsplit.
  all: same_answer.
  all: subst; split; reflexivity.
Qed.

Lemma no_wallet_client_witness :
  let r := run Mock.no_wallet [] (main Mock.viem Mock.scenario) in
  fst r = [Called Connect; Called GetPublicClient; Called GetWalletClients] /\
  snd r = Throw (TypeError "Cannot read properties of undefined (reading 'account')").
Proof.
  intros r.
  apply (no_wallet_client Mock.viem Mock.scenario Mock.no_wallet (fst r) (snd r)).
  - apply surjective_pairing.
  - exists (firstn 2 (fst r)), (skipn 3 (fst r)). split; reflexivity.
Defined.



(** X9: in every run, however it ends, the contracts deployed are an initial
    part of strategy, vault implementation, proxy; in a run that ends well
    they are all three. *)
Theorem deployments_in_order (V : Viem) (env : gmap string string) (W : World) :
  let '(events, outcome) := run W [] (main V env) in
  deployments events `prefix_of` ["AaveV3Strategy"; "AttestifyVault"; "TestProxy"] /\
  (outcome = Ok tt ->
   deployments events = ["AaveV3Strategy"; "AttestifyVault"; "TestProxy"]).
Proof.
  destruct (run W [] (main V env)) as [events outcome] eqn:Hrun.
  unfold main, deploy in Hrun. walk_in Hrun W.
  all: injection Hrun as <- <-.
  all: split; [eexists; reflexivity|intros H; first [discriminate H|reflexivity]].
Qed.

(** X10: only the three contracts are ever deployed; the strategy is deployed
    with the values of [ASSET_ADDRESS], [ATOKEN_ADDRESS] and
    [AAVE_PROVIDER_ADDRESS] as read from the environment, in that order,
    and the vault implementation with no argument. *)
Theorem constructor_arguments (V : Viem) (env : gmap string string) (W : World)
    (events : list Event) (outcome : result unit)
    (name : string) (account : Account.t) (args : list Value) :
  run W [] (main V env) = (events, outcome) ->
  In (Called (DeployContract name account args)) events ->
  In name ["AaveV3Strategy"; "AttestifyVault"; "TestProxy"] /\
  (name = "AaveV3Strategy" ->
   exists asset aToken provider,
     env !! "ASSET_ADDRESS" = Some asset /\
     env !! "ATOKEN_ADDRESS" = Some aToken /\
     env !! "AAVE_PROVIDER_ADDRESS" = Some provider /\
     args = [VString asset; VString aToken; VString provider]) /\
  (name = "AttestifyVault" -> args = []).
Proof.
  intros Hrun Hin.
  unfold main, deploy in Hrun. walk_in Hrun W.
  all: injection Hrun as <- <-; among Hin.
  all: injection Hin as <- <- <-.
  all: match goal with
       | H : loadConfig _ _ = Ok _ |- _ =>
           apply loadConfig_Ok in H; cbn in H;
           destruct H as ((H1 & _)%requireAddress_Ok & (H2 & _)%requireAddress_Ok &
                          (H3 & _)%requireAddress_Ok & _)
       end.
  all: split; [cbn; auto|]; split; intros Hname; try discriminate Hname.
  all: first [reflexivity | do 3 eexists; repeat split; eassumption].
Qed.

Lemma constructor_arguments_witness :
  let r := run (Mock.world None) [] (main Mock.viem Mock.scenario) in
  exists asset aToken provider,
    Mock.scenario !! "ASSET_ADDRESS" = Some asset /\
    Mock.scenario !! "ATOKEN_ADDRESS" = Some aToken /\
    Mock.scenario !! "AAVE_PROVIDER_ADDRESS" = Some provider /\
    [VString Mock.a1; VString Mock.a2; VString Mock.a3] =
    [VString asset; VString aToken; VString provider].
Proof.
  intros r.
  destruct (constructor_arguments Mock.viem Mock.scenario (Mock.world None)
              (fst r) (snd r) "AaveV3Strategy" Mock.account
              [VString Mock.a1; VString Mock.a2; VString Mock.a3])
    as (_ & Hstrategy & _).
  - apply surjective_pairing.
  - vm_compute. repeat (first [left; reflexivity | right]).
  - apply Hstrategy. reflexivity.
Defined.

(** X11: every deployment and every write of a run is made with the account of
    the first wallet client that [getWalletClients] resolved to. *)
Theorem signed_by_deployer (V : Viem) (env : gmap string string) (W : World)
    (events : list Event) (outcome : result unit) (o : Op) (account : Account.t) :
  run W [] (main V env) = (events, outcome) ->
  In (Called o) events ->
  account_of o = Some account ->
  exists deployer others,
    resolved W events GetWalletClients (deployer :: others) /\
    account = WalletClient.account deployer.
Proof.
  intros Hrun Hin Hacc.
  unfold main, deploy in Hrun. walk_in Hrun W.
  all: injection Hrun as <- <-; among Hin.
  all: injection Hin as <-; try discriminate Hacc.
  all: injection Hacc as <-; do 2 eexists; split; [recorded|reflexivity].
Qed.

Lemma signed_by_deployer_witness :
  let r := run (Mock.world None) [] (main Mock.viem Mock.full) in
  exists deployer others,
    resolved (Mock.world None) (fst r) GetWalletClients (deployer :: others) /\
    Mock.account = WalletClient.account deployer.
Proof.
  intros r.
  apply (signed_by_deployer Mock.viem Mock.full (Mock.world None) (fst r) (snd r)
           (Write (Mock.contract "AaveV3Strategy") "setVault"
              [VString (Mock.addressOf "TestProxy")] Mock.account)).
  - apply surjective_pairing.
  - vm_compute. repeat (first [left; reflexivity | right]).
  - reflexivity.
Defined.

(** X12: when [encodeFunctionData] throws for the deployed implementation, the
    run ends with what it threw, right after the deployment of the
    implementation: the proxy is not deployed and nothing is written. *)
Theorem encoder_failure (V : Viem) (env : gmap string string) (W : World)
    (events : list Event) (outcome : result unit)
    (account : Account.t) (implementation : Contract.t) (e : exn) :
  run W [] (main V env) = (events, outcome) ->
  resolved W events (DeployContract "AttestifyVault" account []) implementation ->
  (forall args,
      encodeFunctionData V (Contract.abi implementation) "initialize" args = Throw e) ->
  outcome = Throw e /\
  deployments events = ["AaveV3Strategy"; "AttestifyVault"] /\
  writes events = [] /\
  last events = Some (Called (DeployContract "AttestifyVault" account [])).
Proof.
  intros Hrun (before & after & Hsplit & Hres) Henc.
  unfold main, deploy in Hrun. walk_in Hrun W.
  all: injection Hrun as Hevents Houtcome; rewrite <- Hevents in Hsplit.
  all: locate Hsplit.
  all: same_answer.
  all: match goal with
       | H : encodeFunctionData _ _ _ _ = _ |- _ => rewrite Henc in H
       end.
  all: match goal with
       | H : Throw _ = Ok _ |- _ => discriminate H
       | H : Throw _ = Throw _ |- _ => injection H as <-
       end.
  all: subst; repeat split; reflexivity.
Qed.

Lemma encoder_failure_witness :
  let W := Mock.world None in
  let r := run W [] (main Mock.no_encoder Mock.scenario) in
  snd r = Throw (Error "AbiFunctionNotFoundError") /\
  deployments (fst r) = ["AaveV3Strategy"; "AttestifyVault"] /\
  writes (fst r) = [] /\
  last (fst r) = Some (Called (DeployContract "AttestifyVault" Mock.account [])).
Proof.
  intros W r.
  apply (encoder_failure Mock.no_encoder Mock.scenario W (fst r) (snd r)
           Mock.account (Mock.contract "AttestifyVault")).
  - apply surjective_pairing.
  - exists (removelast (fst r)), []. split; reflexivity.
  - reflexivity.
Defined.

(** X13: [setVault] is only ever sent to the deployed strategy, and its argument
    is the address of the handle that [getContractAt] returned for the
    vault at the address of the deployed proxy. *)
Theorem setVault_link (V : Viem) (env : gmap string string) (W : World)
    (events : list Event) (outcome : result unit)
    (target : Contract.t) (args : list Value) (account : Account.t) :
  run W [] (main V env) = (events, outcome) ->
  In (Called (Write target "setVault" args account)) events ->
  exists proxy vault,
    deployed W events "AaveV3Strategy" target /\
    deployed W events "TestProxy" proxy /\
    resolved W events (GetContractAt "AttestifyVault" (Contract.address proxy)) vault /\
    args = [VString (Contract.address vault)].
Proof.
  intros Hrun Hin.
  unfold main, deploy in Hrun. walk_in Hrun W.
  all: injection Hrun as <- <-; among Hin.
  all: injection Hin as <- <- <-.
  all: do 2 eexists; split; [recorded|]; split; [recorded|]; split; [recorded|reflexivity].
Qed.

Lemma setVault_link_witness :
  let W := Mock.world None in
  let r := run W [] (main Mock.viem Mock.scenario) in
  exists proxy vault,
    deployed W (fst r) "AaveV3Strategy" (Mock.contract "AaveV3Strategy") /\
    deployed W (fst r) "TestProxy" proxy /\
    resolved W (fst r) (GetContractAt "AttestifyVault" (Contract.address proxy)) vault /\
    [VString (Mock.addressOf "TestProxy")] = [VString (Contract.address vault)].
Proof.
  intros W r.
  apply (setVault_link Mock.viem Mock.scenario W (fst r) (snd r) _ _ Mock.account).
  - apply surjective_pairing.
  - vm_compute. repeat (first [left; reflexivity | right]).
Defined.

(** X14: [setRebalancer] is only ever sent to the vault handle obtained at the
    proxy address, after [setVault] has been resolved, and with the value
    of [REBALANCER_ADDRESS] as its argument. *)
Theorem setRebalancer_target (V : Viem) (env : gmap string string) (W : World)
    (events : list Event) (outcome : result unit)
    (target : Contract.t) (args : list Value) (account : Account.t) :
  run W [] (main V env) = (events, outcome) ->
  In (Called (Write target "setRebalancer" args account)) events ->
  exists strategy proxy hash r,
    deployed W events "TestProxy" proxy /\
    resolved W events (GetContractAt "AttestifyVault" (Contract.address proxy)) target /\
    resolved W events
      (Write strategy "setVault" [VString (Contract.address target)] account) hash /\
    env !! "REBALANCER_ADDRESS" = Some r /\
    args = [VString r].
Proof.
  intros Hrun Hin.
  unfold main, deploy in Hrun. walk_in Hrun W.
  all: injection Hrun as <- <-; among Hin.
  all: injection Hin as <- <- <-.
  all: repeat match goal with
         | H : loadConfig _ _ = Ok _ |- _ =>
             apply loadConfig_Ok in H; cbn in H;
             destruct H as (_ & _ & _ & _ & _ & _ & _ & Hreb & _)
         | H : negb (falsy _) && _ = true |- _ =>
             apply rebalancer_condition in H; destruct H as (r & Hr & _ & _)
         end.
  all: rewrite Hr in Hreb; symmetry in Hreb.
  all: do 4 eexists; split; [recorded|]; split; [recorded|]; split; [recorded_at|].
  all: split; [exact Hreb|rewrite Hr; reflexivity].
Qed.

Lemma setRebalancer_target_witness :
  let W := Mock.world None in
  let r := run W [] (main Mock.viem Mock.full) in
  let vault := {| Contract.address := Mock.addressOf "TestProxy";
                  Contract.abi := "AttestifyVault" |} in
  exists strategy proxy hash r',
    deployed W (fst r) "TestProxy" proxy /\
    resolved W (fst r) (GetContractAt "AttestifyVault" (Contract.address proxy)) vault /\
    resolved W (fst r)
      (Write strategy "setVault" [VString (Contract.address vault)] Mock.account) hash /\
    Mock.full !! "REBALANCER_ADDRESS" = Some r' /\
    [VString Mock.a1] = [VString r'].
Proof.
  intros W r vault.
  apply (setRebalancer_target Mock.viem Mock.full W (fst r) (snd r)).
  - apply surjective_pairing.
  - vm_compute. repeat (first [left; reflexivity | right]).
Defined.

(** X15: unless [AUTHORIZE_VAULT] is the string [true], no [authorizeCaller] is
    sent and no handle other than the vault's is requested; when it is, a
    run that ends well has requested the verifier handle at
    [VERIFIER_ADDRESS], after the vault's, and sent one
    [authorizeCaller]. *)
Theorem authorization_gate (V : Viem) (env : gmap string string) (W : World)
    (events : list Event) (outcome : result unit) :
  run W [] (main V env) = (events, outcome) ->
  (env !! "AUTHORIZE_VAULT" <> Some "true" ->
   calls "authorizeCaller" events = [] /\
   Forall (fun h => fst h = "AttestifyVault") (handles events)) /\
  (env !! "AUTHORIZE_VAULT" = Some "true" -> outcome = Ok tt ->
   exists verifier vault,
     handles events = [("AttestifyVault", vault); ("SelfProtocolVerifier", verifier)] /\
     env !! "VERIFIER_ADDRESS" = Some verifier /\
     length (calls "authorizeCaller" events) = 1%nat).
Proof.
  intros Hrun.
  unfold main, deploy in Hrun. walk_in Hrun W.
  all: injection Hrun as <- <-.
  all: try match goal with
       | H : loadConfig _ _ = Ok _ |- _ =>
           apply loadConfig_Ok in H; cbn in H;
           destruct H as (_ & _ & _ & (Hver & _)%requireAddress_Ok & _ & _ & _ & _ & Hflag)
       end.
  all: try match goal with
       | H : authorizeVaultOnVerifier _ = true |- _ =>
           rewrite Hflag in H; apply bool_decide_eq_true in H
       | H : authorizeVaultOnVerifier _ = false |- _ =>
           rewrite Hflag in H; apply bool_decide_eq_false in H
       end.
  all: split; [intros Hoff|intros Hon Hok].
  all: try discriminate Hok.
  all: try contradiction.
  all: try (split; [reflexivity|repeat constructor]).
  all: do 2 eexists; split; [reflexivity|]; split; [exact Hver|reflexivity].
Qed.

Lemma authorization_gate_witness :
  let r := run (Mock.world None) [] (main Mock.viem Mock.full) in
  let r' := run (Mock.world None) [] (main Mock.viem Mock.scenario) in
  (exists verifier vault,
     handles (fst r) = [("AttestifyVault", vault); ("SelfProtocolVerifier", verifier)] /\
     Mock.full !! "VERIFIER_ADDRESS" = Some verifier /\
     length (calls "authorizeCaller" (fst r)) = 1%nat) /\
  calls "authorizeCaller" (fst r') = [] /\
  Forall (fun h => fst h = "AttestifyVault") (handles (fst r')).
Proof.
  intros r r'. split.
  - destruct (authorization_gate Mock.viem Mock.full (Mock.world None) (fst r) (snd r))
      as [_ Hon]; [apply surjective_pairing|].
    apply Hon; reflexivity.
  - destruct (authorization_gate Mock.viem Mock.scenario (Mock.world None) (fst r') (snd r'))
      as [Hoff _]; [apply surjective_pairing|].
    apply Hoff. discriminate.
Defined.

(** X16: [authorizeCaller] is only ever sent when [AUTHORIZE_VAULT] is [true],
    to the handle that [getContractAt] returned for SelfProtocolVerifier at
    [VERIFIER_ADDRESS], with the address of the vault handle as its
    argument. *)
Theorem authorizeCaller_step (V : Viem) (env : gmap string string) (W : World)
    (events : list Event) (outcome : result unit)
    (target : Contract.t) (args : list Value) (account : Account.t) :
  run W [] (main V env) = (events, outcome) ->
  In (Called (Write target "authorizeCaller" args account)) events ->
  env !! "AUTHORIZE_VAULT" = Some "true" /\
  exists verifier proxy vault,
    env !! "VERIFIER_ADDRESS" = Some verifier /\
    resolved W events (GetContractAt "SelfProtocolVerifier" verifier) target /\
    deployed W events "TestProxy" proxy /\
    resolved W events (GetContractAt "AttestifyVault" (Contract.address proxy)) vault /\
    args = [VString (Contract.address vault)].
Proof.
  intros Hrun Hin.
  unfold main, deploy in Hrun. walk_in Hrun W.
  all: injection Hrun as <- <-; among Hin.
  all: injection Hin as <- <- <-.
  all: match goal with
       | H : loadConfig _ _ = Ok _ |- _ =>
           apply loadConfig_Ok in H; cbn in H;
           destruct H as (_ & _ & _ & (Hver & _)%requireAddress_Ok & _ & _ & _ & _ & Hflag)
       end.
  all: match goal with
       | H : authorizeVaultOnVerifier _ = true |- _ =>
           rewrite Hflag in H; apply bool_decide_eq_true in H
       end.
  all: split; [assumption|].
  all: do 3 eexists; split; [exact Hver|].
  all: split; [recorded|]; split; [recorded|]; split; [recorded|reflexivity].
Qed.

Lemma authorizeCaller_step_witness :
  let W := Mock.world None in
  let r := run W [] (main Mock.viem Mock.full) in
  let handle := {| Contract.address := Mock.a4; Contract.abi := "SelfProtocolVerifier" |} in
  Mock.full !! "AUTHORIZE_VAULT" = Some "true" /\
  exists verifier proxy vault,
    Mock.full !! "VERIFIER_ADDRESS" = Some verifier /\
    resolved W (fst r) (GetContractAt "SelfProtocolVerifier" verifier) handle /\
    deployed W (fst r) "TestProxy" proxy /\
    resolved W (fst r) (GetContractAt "AttestifyVault" (Contract.address proxy)) vault /\
    [VString (Mock.addressOf "TestProxy")] = [VString (Contract.address vault)].
Proof.
  intros W r handle.
  apply (authorizeCaller_step Mock.viem Mock.full W (fst r) (snd r) _ _ Mock.account).
  - apply surjective_pairing.
  - vm_compute. repeat (first [left; reflexivity | right]).
Defined.

(** X17: the writes of a run are, in this order and each at most once,
    [setVault], [setRebalancer] and [authorizeCaller]; a run that ends well
    has sent [setVault] first. *)
Theorem writes_in_order (V : Viem) (env : gmap string string) (W : World) :
  let '(events, outcome) := run W [] (main V env) in
  sublist (map (fun w => fst (fst w)) (writes events))
          ["setVault"; "setRebalancer"; "authorizeCaller"] /\
  (outcome = Ok tt -> exists rest, map (fun w => fst (fst w)) (writes events) = "setVault" :: rest).
Proof.
  destruct (run W [] (main V env)) as [events outcome] eqn:Hrun.
  unfold main, deploy in Hrun. walk_in Hrun W.
  all: injection Hrun as <- <-.
  all: split; [cbn; repeat constructor|intros H; first [discriminate H|eexists; reflexivity]].
Qed.

(** X18: the closing report is written exactly in the runs that end well: it
    then shows the addresses of the strategy, of the implementation and of
    the vault handle, the run's last line is the third reminder, and a run
    that ends otherwise has no report. *)
Theorem report_on_success (V : Viem) (env : gmap string string) (W : World) :
  let '(events, outcome) := run W [] (main V env) in
  (outcome = Ok tt <->
   In (Logged [VString "
Deployment complete:"]) events) /\
  (outcome = Ok tt ->
   exists strategy implementation proxy vault,
     deployed W events "AaveV3Strategy" strategy /\
     deployed W events "AttestifyVault" implementation /\
     deployed W events "TestProxy" proxy /\
     resolved W events (GetContractAt "AttestifyVault" (Contract.address proxy)) vault /\
     report events =
       [[VString "- Strategy:"; VString (Contract.address strategy)];
        [VString "- Vault Implementation:"; VString (Contract.address implementation)];
        [VString "- Vault Proxy:"; VString (Contract.address vault)]] /\
     last events =
       Some (Logged [VString "3. Configure rebalancer/treasury roles and deposit limits as required."])) /\
  (outcome <> Ok tt -> report events = []).
Proof.
  destruct (run W [] (main V env)) as [events outcome] eqn:Hrun.
  unfold main, deploy in Hrun. walk_in Hrun W.
  all: injection Hrun as <- <-.
  all: split; [split; [intros H; first [discriminate H | cbn; auto 40]
                      |intros H; first [reflexivity | among H]]|].
  all: split; [intros H; try discriminate H|intros H; first [reflexivity|now destruct H]].
  all: do 4 eexists; split; [recorded|]; split; [recorded|]; split; [recorded|].
  all: split; [recorded|]; split; reflexivity.
Qed.

(** X19: under a client that resolves every operation, a loaded configuration
    and an encoder that succeeds make the run end well, with the writes
    [setVault] on the strategy, then [setRebalancer] on the proxy when the
    rebalancer is set, non-empty and not the deployer's address, then
    [authorizeCaller] on the verifier when the flag is set, each vault
    argument being the proxy address. *)
Theorem cooperative_run (V : Viem) (W : World) (env : gmap string string)
    (cfg : DeployConfig) :
  cooperative W ->
  loadConfig V env = Ok cfg ->
  (forall abi args, exists data, encodeFunctionData V abi "initialize" args = Ok data) ->
  exists events deployer others strategy implementation proxy,
    run W [] (main V env) = (events, Ok tt) /\
    resolved W events GetWalletClients (deployer :: others) /\
    deployed W events "AaveV3Strategy" strategy /\
    deployed W events "AttestifyVault" implementation /\
    deployed W events "TestProxy" proxy /\
    writes events =
      ("setVault", Contract.address strategy, [VString (Contract.address proxy)]) ::
      (if negb (falsy (rebalancer cfg)) &&
          negb (String.eqb (rebalancer cfg ?? "")
                  (Account.address (WalletClient.account deployer)))
       then [("setRebalancer", Contract.address proxy,
              [VString (rebalancer cfg ?? "")])]
       else []) ++
      (if authorizeVaultOnVerifier cfg
       then [("authorizeCaller", verifier cfg, [VString (Contract.address proxy)])]
       else []).
Proof.
  intros (Hall & Hw & Hh) Hcfg Henc.
  destruct (run W [] (main V env)) as [events outcome] eqn:Hrun.
  unfold main, deploy in Hrun. rewrite Hcfg in Hrun.
  walk_in Hrun W;
    try match goal with
        | H : W ?past ?o = Throw _ |- _ =>
            destruct (Hall past o) as [? ?]; congruence
        | H : W ?past GetWalletClients = Ok [] |- _ => destruct (Hw past H)
        | H : encodeFunctionData V ?abi _ ?args = Throw _ |- _ =>
            destruct (Henc abi args) as [? ?]; congruence
        end.
  all: injection Hrun as <- <-.
  all: repeat match goal with
         | H : _ _ (GetContractAt _ _) = Ok _ |- _ =>
             let Haddr := fresh "Haddr" in
             pose proof (Hh _ _ _ _ H) as Haddr; revert H
         end; intros.
  all: do 6 eexists; split; [reflexivity|].
  all: split; [recorded|]; split; [recorded|]; split; [recorded|]; split; [recorded|].
  all: cbn [writes app Contract.address].
  all: repeat match goal with
         | H : negb (falsy _) && _ = _ |- _ => rewrite H; clear H
         | H : authorizeVaultOnVerifier _ = _ |- _ => rewrite H; clear H
         | H : Contract.address _ = _ |- _ => rewrite H; clear H
         end.
  all: reflexivity.
Qed.

Lemma cooperative_run_witness :
  exists events strategy proxy,
    run (Mock.world None) [] (main Mock.viem Mock.full) = (events, Ok tt) /\
    writes events =
      [("setVault", Contract.address strategy, [VString (Contract.address proxy)]);
       ("setRebalancer", Contract.address proxy, [VString Mock.a1]);
       ("authorizeCaller", Mock.a4, [VString (Contract.address proxy)])].
Proof.
  destruct (cooperative_run Mock.viem (Mock.world None) Mock.full
              {| asset := Mock.a1; aToken := Mock.a2; addressesProvider := Mock.a3;
                 verifier := Mock.a4; maxUserDeposit := 500000000;
                 maxTotalDeposit := 10000000000; assetDecimals := JS.of_nat 6;
                 rebalancer := Some Mock.a1; authorizeVaultOnVerifier := true |})
    as (events & deployer & others & strategy & implementation & proxy &
        Hrun & Hwallet & _ & _ & _ & Hwrites).
  - exact cooperative_world.
  - reflexivity.
  - intros abi args. eexists. reflexivity.
  - exists events, strategy, proxy. split; [exact Hrun|].
    rewrite Hwrites.
    destruct Hwallet as (before & after & _ & Hres).
    injection Hres as <- <-. reflexivity.
Defined.
